(** * TurnOffTPLINKIpv6Firewall: a shallow embedding of [main.go]

    The program is a local form server that relays DMZ and IPv6-firewall
    settings to a TP-LINK router.  This development embeds, function by
    function, the code of [main.go]:

    - [readConfig]       (lines 39-60)   the config store,
    - [sendRequest]      (lines 63-98)   the router client,
    - [handler]          (lines 101-165) the form server,
    - [safeExecCommand], [cleanupProcesses], [cleanup] (lines 173-271)
                                         the process supervisor,
    - the tail of [main] (lines 273-321) the shutdown sequence.

    The repository also holds an earlier revision of the file, without the
    process supervisor; its [readConfig], [sendRequest] and POST handling
    are the same code.

    Go strings are byte strings ([string], one [ascii] per byte), Go errors
    are carried by their message text, the package-level variables [config],
    [childProcess] and [processGroup] are threaded through as explicit
    state, and everything the program receives from outside (the config
    file, the submitted form, the router's answer, the outcome of process
    creation) is an argument of the function that consumes it. *)

From Stdlib Require Import String Ascii ZArith List Bool Lia DecimalString.
From stdpp Require Import gmap strings list fin_maps sorting.
Import ListNotations.

Set Warnings "-register-all".

(** ** Go strings *)

Definition error := string.

(** The double quote, the tab and the line feed as one-byte strings. *)
Definition dq : string := String "034"%char "".
Definition tab : string := String "009"%char "".
Definition nl : string := String "010"%char "".

Definition byte_val (c : ascii) : nat := nat_of_ascii c.

Definition is_upper (c : ascii) : bool :=
  (65 <=? byte_val c) && (byte_val c <=? 90).
Definition is_lower (c : ascii) : bool :=
  (97 <=? byte_val c) && (byte_val c <=? 122).
Definition is_ascii_byte (c : ascii) : bool := byte_val c <? 128.

Definition lower_byte (c : ascii) : ascii :=
  if is_upper c then ascii_of_nat (byte_val c + 32) else c.
Definition upper_byte (c : ascii) : ascii :=
  if is_lower c then ascii_of_nat (byte_val c - 32) else c.

Fixpoint string_forallb (p : ascii -> bool) (s : string) : bool :=
  match s with
  | EmptyString => true
  | String c r => p c && string_forallb p r
  end.

Fixpoint string_existsb (p : ascii -> bool) (s : string) : bool :=
  match s with
  | EmptyString => false
  | String c r => p c || string_existsb p r
  end.

Fixpoint string_map (f : ascii -> ascii) (s : string) : string :=
  match s with
  | EmptyString => EmptyString
  | String c r => String (f c) (string_map f r)
  end.

(** [strings.Contains]: [sub] occurs in [s]. *)
Definition Contains (s sub : string) : Prop :=
  exists pre post, s = pre +:+ sub +:+ post.

(** [strings.HasPrefix]. *)
Definition HasPrefix (s pre : string) : Prop :=
  exists post, s = pre +:+ post.

(** ** The settings record (lines 21-29) *)

Record Config := mkConfig {
  RouterIP : string;
  Stok : string;
  IPv6FirewallEnable : string;
  DmzDestIP : string;
  DmzDestIP6 : string;
  ServerPort : string;
  DmzEnable : string
}.

(** The zero value of the package-level [config] at process start. *)
Definition zero_Config : Config := mkConfig "" "" "" "" "" "" "".

Definition set_RouterIP (v : string) (c : Config) : Config :=
  mkConfig v (Stok c) (IPv6FirewallEnable c) (DmzDestIP c) (DmzDestIP6 c)
           (ServerPort c) (DmzEnable c).
Definition set_Stok (v : string) (c : Config) : Config :=
  mkConfig (RouterIP c) v (IPv6FirewallEnable c) (DmzDestIP c) (DmzDestIP6 c)
           (ServerPort c) (DmzEnable c).
Definition set_IPv6FirewallEnable (v : string) (c : Config) : Config :=
  mkConfig (RouterIP c) (Stok c) v (DmzDestIP c) (DmzDestIP6 c)
           (ServerPort c) (DmzEnable c).
Definition set_DmzDestIP (v : string) (c : Config) : Config :=
  mkConfig (RouterIP c) (Stok c) (IPv6FirewallEnable c) v (DmzDestIP6 c)
           (ServerPort c) (DmzEnable c).
Definition set_DmzDestIP6 (v : string) (c : Config) : Config :=
  mkConfig (RouterIP c) (Stok c) (IPv6FirewallEnable c) (DmzDestIP c) v
           (ServerPort c) (DmzEnable c).
Definition set_ServerPort (v : string) (c : Config) : Config :=
  mkConfig (RouterIP c) (Stok c) (IPv6FirewallEnable c) (DmzDestIP c)
           (DmzDestIP6 c) v (DmzEnable c).
Definition set_DmzEnable (v : string) (c : Config) : Config :=
  mkConfig (RouterIP c) (Stok c) (IPv6FirewallEnable c) (DmzDestIP c)
           (DmzDestIP6 c) (ServerPort c) v.

(** The fields of [Config] with their [json:"..."] tags. *)
Inductive Field :=
  FRouterIP | FStok | FIPv6FirewallEnable | FDmzDestIP | FDmzDestIP6
| FServerPort | FDmzEnable.

Definition all_fields : list Field :=
  [FRouterIP; FStok; FIPv6FirewallEnable; FDmzDestIP; FDmzDestIP6;
   FServerPort; FDmzEnable].

Definition tag (f : Field) : string :=
  match f with
  | FRouterIP => "router_ip"
  | FStok => "stok"
  | FIPv6FirewallEnable => "ipv6_firewall_enable"
  | FDmzDestIP => "dmz_dest_ip"
  | FDmzDestIP6 => "dmz_dest_ip6"
  | FServerPort => "server_port"
  | FDmzEnable => "dmz_enable"
  end.

Definition set_field (f : Field) (v : string) (c : Config) : Config :=
  match f with
  | FRouterIP => set_RouterIP v c
  | FStok => set_Stok v c
  | FIPv6FirewallEnable => set_IPv6FirewallEnable v c
  | FDmzDestIP => set_DmzDestIP v c
  | FDmzDestIP6 => set_DmzDestIP6 v c
  | FServerPort => set_ServerPort v c
  | FDmzEnable => set_DmzEnable v c
  end.

(** ** [encoding/json]: decoding into [Config]

    [json.Unmarshal] first validates the whole input ([checkValid]); a
    syntax error is returned before anything is stored.  A valid document
    is then decoded member by member: a string stored into a string field,
    [null] ignored, and a value of any other kind recorded as an
    [UnmarshalTypeError] (the earliest one is returned) while decoding goes
    on with the members that follow.  The file is therefore modelled by
    how [encoding/json] reads it: not valid JSON, or a JSON value. *)

Inductive jvalue : Type :=
| JNull
| JBool (b : bool)
| JNumber (literal : string)
| JStr (s : string)
| JArray (elems : list jvalue)
| JObj (members : list (string * jvalue)).

Inductive Document :=
| Malformed (err : error)
| WellFormed (v : jvalue).

Definition kind (v : jvalue) : string :=
  match v with
  | JNull => "null"
  | JBool _ => "bool"
  | JNumber _ => "number"
  | JStr _ => "string"
  | JArray _ => "array"
  | JObj _ => "object"
  end.

(** [foldName]: the key used for the case-insensitive field match.  ASCII
    letters are upper-cased; the two non-ASCII runes whose simple case
    folding reaches ASCII, U+017F (bytes C5 BF, folds to S) and U+212A
    (bytes E2 84 AA, folds to K), are replaced by that letter; any other
    non-ASCII byte folds outside ASCII and is kept as it is, which is
    enough to compare with the all-ASCII tags of [Config]. *)
Fixpoint foldName (s : string) : string :=
  match s with
  | EmptyString => EmptyString
  | String c r =>
      if is_ascii_byte c then String (upper_byte c) (foldName r)
      else
        match r with
        | String c2 r2 =>
            if (byte_val c =? 197) && (byte_val c2 =? 191)
            then String "S"%char (foldName r2)
            else
              match r2 with
              | String c3 r3 =>
                  if (byte_val c =? 226) && (byte_val c2 =? 132)
                     && (byte_val c3 =? 170)
                  then String "K"%char (foldName r3)
                  else String c (foldName r)
              | EmptyString => String c (foldName r)
              end
        | EmptyString => String c EmptyString
        end
  end.

(** Field lookup for an object key: exact tag first, folded tag second. *)
Definition field_of_key (k : string) : option Field :=
  match List.find (fun f => String.eqb (tag f) k) all_fields with
  | Some f => Some f
  | None =>
      List.find (fun f => String.eqb (foldName (tag f)) (foldName k))
                all_fields
  end.

Definition UnmarshalTypeError_field (v : jvalue) (f : Field) : error :=
  "json: cannot unmarshal " +:+ kind v +:+
  " into Go struct field Config." +:+ tag f +:+ " of type string".

Definition UnmarshalTypeError_top (v : jvalue) : error :=
  "json: cannot unmarshal " +:+ kind v +:+
  " into Go value of type main.Config".

(** [saveError]: only the earliest error is kept. *)
Definition saveError (saved new : option error) : option error :=
  match saved with
  | Some e => Some e
  | None => new
  end.

(** One member whose key names field [f]. *)
Definition store_member (f : Field) (v : jvalue) (c : Config)
  : Config * option error :=
  match v with
  | JStr s => (set_field f s c, None)
  | JNull => (c, None)
  | _ => (c, Some (UnmarshalTypeError_field v f))
  end.

Fixpoint decode_members (ms : list (string * jvalue)) (c : Config)
         (saved : option error) : Config * option error :=
  match ms with
  | [] => (c, saved)
  | (k, v) :: rest =>
      match field_of_key k with
      | None => decode_members rest c saved
      | Some f =>
          let '(c', e) := store_member f v c in
          decode_members rest c' (saveError saved e)
      end
  end.

(** [json.Unmarshal(bytes, &config)]. *)
Definition json_Unmarshal (doc : Document) (c : Config)
  : Config * option error :=
  match doc with
  | Malformed e => (c, Some e)
  | WellFormed (JObj ms) => decode_members ms c None
  | WellFormed JNull => (c, None)
  | WellFormed v => (c, Some (UnmarshalTypeError_top v))
  end.

(** ** Config store: [readConfig] (lines 39-60) *)

(** What [os.Open] and [io.ReadAll] deliver for the file name. *)
Inductive FileState :=
| OpenFails (err : error)
| ReadFails (err : error)
| Contents (doc : Document).

Definition readConfig (file : FileState) (config : Config)
  : Config * option error :=
  match file with
  | OpenFails err =>
      let config := set_ServerPort "8080" config in
      let config := set_DmzEnable "1" config in
      (config, Some err)
  | ReadFails err =>
      let config := set_ServerPort "8080" config in
      let config := set_DmzEnable "1" config in
      (config, Some err)
  | Contents doc =>
      let config := set_ServerPort "8080" config in
      let config := set_DmzEnable "1" config in
      json_Unmarshal doc config
  end.

(** ** What the Go libraries compute on bytes

    Three library functions work on the bytes of a string in ways the
    program never looks into.  They are the members of [Runtime], and
    everything below holds for every instance:

    - [unicode_ToLower]: [strings.Map(unicode.ToLower, s)], which
      [strings.ToLower] falls back to when [s] has a non-ASCII byte;
    - [json_Marshal]: [json.Marshal] on a value built from strings and
      string-keyed maps.  [encoding/json] reports an error for unsupported
      types and values, cyclic data and failing [Marshaler] methods only,
      none of which such a value has: [Marshal_total];
    - [attrescaper]: the escaper [html/template] inserts for an action
      inside a quoted attribute value. *)

Inductive Result (A : Type) :=
| Ok (a : A)
| Err (err : error).
Arguments Ok {A} a.
Arguments Err {A} err.

(** The values [sendRequest] hands to [json.Marshal]:
    [map[string]interface{}] over strings and further such maps. *)
Inductive gvalue : Type :=
| VString (s : string)
| VMap (m : gmap string gvalue).

Class Runtime := {
  unicode_ToLower : string -> string;
  json_Marshal : gvalue -> Result string;
  attrescaper : string -> string;
  Marshal_total : forall v, exists body, json_Marshal v = Ok body
}.

(** [strings.ToLower]: a byte-wise fast path for ASCII-only strings. *)
Definition strings_ToLower `{Runtime} (s : string) : string :=
  if string_forallb is_ascii_byte s then
    if string_existsb is_upper s then string_map lower_byte s else s
  else unicode_ToLower s.

(** ** Router client: [sendRequest] (lines 63-98) *)

Record PostRequest := mkPost {
  post_url : string;
  post_contentType : string;
  post_body : string
}.

(** What [io.ReadAll(resp.Body)] delivers. *)
Inductive BodyRead :=
| ReadOk (data : string)
| ReadErr (err : error).

(** What [http.Post] delivers. *)
Inductive PostOutcome :=
| PostFails (err : error)
| PostResponse (StatusCode : Z) (Body : BodyRead).

Definition Network := PostRequest -> PostOutcome.

Definition requestBody (config : Config) : gvalue :=
  VMap {[
    "firewall" := VMap {[
      "dmz" := VMap {[
        "enable" := VString (DmzEnable config);
        "dest_ip" := VString (DmzDestIP config);
        "wan_port" := VString "0";
        "dest_ip6" := VString (DmzDestIP6 config)
      ]};
      "ipv6_firewall" := VMap {[
        "enable" := VString (IPv6FirewallEnable config)
      ]}
    ]};
    "method" := VString "set"
  ]}.

(** [fmt.Sprintf("http://%s/stok=%s/ds", config.RouterIP, config.Stok)]. *)
Definition request_url (config : Config) : string :=
  "http://" +:+ RouterIP config +:+ "/stok=" +:+ Stok config +:+ "/ds".

(** The result carries, besides the two values the Go function returns,
    the list of [http.Post] calls it made. *)
Definition sendRequest `{Runtime} (config : Config) (net : Network)
  : (bool * string) * list PostRequest :=
  match json_Marshal (requestBody config) with
  | Err err => ((false, "错误: " +:+ err), [])
  | Ok body =>
      let url := request_url config in
      let req := mkPost url "application/json" body in
      match net req with
      | PostFails err => ((false, "请求错误: " +:+ err), [req])
      | PostResponse StatusCode (ReadErr err) =>
          ((false, "读取响应错误: " +:+ err), [req])
      | PostResponse StatusCode (ReadOk responseBody) =>
          (((StatusCode =? 200)%Z, responseBody), [req])
      end
  end.

(** ** [net/http]: the response writer and the request

    The first [Write] on a response sends the header with status 200 if no
    [WriteHeader] came before; once the header is sent, a further
    [WriteHeader] is ignored (the server logs a superfluous call) and
    changes to the header map no longer reach the client.  [sentHeader] is
    the snapshot of the handler's header map taken when the header is sent;
    the headers the server adds by itself are left out. *)

Record ResponseWriter := mkRW {
  handlerHeader : gmap string string;
  wroteHeader : bool;
  status : Z;
  sentHeader : gmap string string;
  written : string
}.

Definition new_ResponseWriter : ResponseWriter := mkRW ∅ false 0 ∅ "".

Definition WriteHeader (code : Z) (w : ResponseWriter) : ResponseWriter :=
  if wroteHeader w then w
  else mkRW (handlerHeader w) true code (handlerHeader w) (written w).

Definition Write (data : string) (w : ResponseWriter) : ResponseWriter :=
  let w := if wroteHeader w then w else WriteHeader 200 w in
  mkRW (handlerHeader w) (wroteHeader w) (status w) (sentHeader w)
       (written w +:+ data).

Definition Header_Set (key value : string) (w : ResponseWriter)
  : ResponseWriter :=
  mkRW (<[key := value]> (handlerHeader w)) (wroteHeader w) (status w)
       (sentHeader w) (written w).

(** [http.Redirect] for a request whose method is neither GET nor HEAD (the
    handler calls it under [r.Method == http.MethodPost]) and a target that
    is already a clean absolute path: the Location header is set and the
    status written; no body is added. *)
Definition http_Redirect (w : ResponseWriter) (url : string) (code : Z)
  : ResponseWriter :=
  WriteHeader code (Header_Set "Location" url w).

(** When the handler returns without having sent a header, the server
    sends it with status 200. *)
Definition finishRequest (w : ResponseWriter) : ResponseWriter :=
  if wroteHeader w then w else WriteHeader 200 w.

Definition StatusSeeOther : Z := 303.
Definition MethodPost : string := "POST".

Record Request := mkRequest {
  Method : string;
  Form : gmap string (list string)
}.

(** [r.FormValue(key)]: the first value for [key], or the empty string. *)
Definition FormValue (r : Request) (key : string) : string :=
  match Form r !! key with
  | Some (v :: _) => v
  | _ => ""
  end.

(** ** Form server: [handler] (lines 101-165) *)

(** The form template (lines 138-162) as [html/template] runs it: text
    copied to the response, and the six actions, each inside a quoted
    [value] attribute and so passed through [attrescaper]. *)
Inductive Node :=
| Text (s : string)
| Action (field : Config -> string).

Definition tabs (n : nat) : string := String.concat "" (repeat tab n).
Definition quoted (s : string) : string := dq +:+ s +:+ dq.

Definition text_line (indent : nat) (s : string) : list Node :=
  [Text (tabs indent +:+ s +:+ nl)].

Definition label_line (s : string) : list Node :=
  text_line 4 ("<label>" +:+ s +:+ "</label><br>").

Definition input_line (name placeholder : string) (field : Config -> string)
  : list Node :=
  [Text (tabs 4 +:+ "<input type=" +:+ quoted "text" +:+
         " name=" +:+ quoted name +:+
         " placeholder=" +:+ quoted placeholder +:+
         " value=" +:+ dq);
   Action field;
   Text (dq +:+ "><br>" +:+ nl)].

Definition tmpl : list Node :=
  text_line 0 "<html>" ++
  text_line 2 "<body>" ++
  text_line 3 ("<form method=" +:+ quoted "post" +:+ ">") ++
  label_line "Router IP:" ++
  input_line "router_ip" "例如: 192.168.0.1" RouterIP ++
  text_line 4 "" ++
  label_line "Stok:" ++
  input_line "stok" "路由器认证令牌" Stok ++
  text_line 4 "" ++
  label_line "IPv6 Firewall Enable (on=开启,off=关闭):" ++
  input_line "ipv6_firewall_enable" "on或off" IPv6FirewallEnable ++
  text_line 4 "" ++
  label_line "DMZ 启用状态 (1=启用,0=关闭):" ++
  input_line "dmz_enable" "0或1" DmzEnable ++
  text_line 4 "" ++
  label_line "DMZ Destination IP (IPv4):" ++
  input_line "dmz_dest_ip" "例如: 192.168.0.102" DmzDestIP ++
  text_line 4 "" ++
  label_line "DMZ Destination IPv6:" ++
  input_line "dmz_dest_ip6" "例如: 240e:370:xx" DmzDestIP6 ++
  text_line 4 "" ++
  text_line 4 ("<input type=" +:+ quoted "submit" +:+
               " value=" +:+ quoted "提交" +:+ ">") ++
  text_line 3 "</form>" ++
  text_line 2 "</body>" ++
  [Text (tab +:+ "</html>")].

Definition exec_node `{Runtime} (data : Config) (w : ResponseWriter)
           (n : Node) : ResponseWriter :=
  match n with
  | Text s => Write s w
  | Action field => Write (attrescaper (field data)) w
  end.

(** [t.Execute(w, config)]. *)
Definition Execute `{Runtime} (t : list Node) (w : ResponseWriter)
           (data : Config) : ResponseWriter :=
  fold_left (exec_node data) t w.

(** The handler returns the new value of [config], the response writer as
    the handler leaves it, and the [http.Post] calls made on the way. *)
Definition handler `{Runtime} (config : Config) (w : ResponseWriter)
           (r : Request) (net : Network)
  : Config * ResponseWriter * list PostRequest :=
  if String.eqb (Method r) MethodPost then
    let config := set_RouterIP (FormValue r "router_ip") config in
    let config := set_Stok (FormValue r "stok") config in
    let ipv6Firewall := strings_ToLower (FormValue r "ipv6_firewall_enable") in
    let config :=
      if String.eqb ipv6Firewall "on" then
        set_IPv6FirewallEnable "on" config
      else if String.eqb ipv6Firewall "off" then
        set_IPv6FirewallEnable "off" config
      else
        set_IPv6FirewallEnable ipv6Firewall config in
    let dmzEnable := FormValue r "dmz_enable" in
    let '(config, w) :=
      if String.eqb dmzEnable "0" || String.eqb dmzEnable "1" then
        (set_DmzEnable dmzEnable config, w)
      else
        (config,
         Write ("DMZ启用状态必须为0或1，已保持原有值: " +:+
                DmzEnable config +:+ "<br>") w) in
    let config := set_DmzDestIP (FormValue r "dmz_dest_ip") config in
    let config := set_DmzDestIP6 (FormValue r "dmz_dest_ip6") config in
    let '((success, message), posts) := sendRequest config net in
    let w :=
      if success then http_Redirect w "/success" StatusSeeOther
      else Write ("操作失败: " +:+ message) w in
    (config, w, posts)
  else
    (config, Execute tmpl w config, []).

(** For a HEAD request the server sends the header and drops what the
    handler writes to the body. *)
Definition MethodHead : string := "HEAD".

Definition sent_body (r : Request) (w : ResponseWriter) : ResponseWriter :=
  if String.eqb (Method r) MethodHead then
    mkRW (handlerHeader w) (wroteHeader w) (status w) (sentHeader w) ""
  else w.

(** One request served on a fresh response writer; the response is what
    the client receives once the handler has returned. *)
Definition serve `{Runtime} (config : Config) (r : Request) (net : Network)
  : Config * ResponseWriter * list PostRequest :=
  let '(config', w, posts) := handler config new_ResponseWriter r net in
  (config', sent_body r (finishRequest w), posts).

(** ** Process supervisor (lines 173-253)

    [mu] is held for the whole of [safeExecCommand], of [cleanup] and of
    the watcher's two assignments, so each of the three is one atomic
    transition of the pair ([childProcess], [processGroup]).  What they do
    to the outside is recorded as a list of events, in order. *)

Record Process := mkProcess { Pid : Z }.

Record Supervisor := mkSupervisor {
  childProcess : option Process;
  processGroup : Z
}.

Definition initial_Supervisor : Supervisor := mkSupervisor None 0.

Inductive Signal := Interrupt | Kill.

Inductive Event :=
| EvSignal (pid : Z) (sig : Signal)
| EvSleep (milliseconds : Z)
| EvPrint (text : string)
| EvLoadLibrary (name : string)
| EvGetProcAddress (name : string)
| EvOpenProcess (pid : Z)
| EvTerminateProcess (pid : Z)
| EvCloseHandle (pid : Z)
| EvFreeLibrary (name : string)
| EvStart (name : string) (args : list string) (newProcessGroup : bool)
| EvClose (channel : string)
| EvExit (code : Z).

(** How the operating system answers during one teardown. *)
Record TeardownOutcome := mkTeardown {
  kill_error : option error;
  LoadLibrary_ok : bool;
  GetProcAddress_ok : bool;
  OpenProcess_ok : bool
}.

(** How [cmd.Start] ends; a started process has a positive id. *)
Inductive StartOutcome :=
| StartFails (err : error)
| Started (pid : positive).

Definition is_windows (GOOS : string) : bool := String.eqb GOOS "windows".

(** [%d] of [fmt.Printf]. *)
Definition fmt_d (n : Z) : string := NilZero.string_of_int (Z.to_int n).

(** The Windows branch (lines 231-248): the calls made, then the two
    deferred calls, which run when [cleanupProcesses] returns. *)
Definition terminate_group (os : TeardownOutcome) (group : Z)
  : list Event * list Event :=
  if LoadLibrary_ok os then
    if GetProcAddress_ok os then
      if OpenProcess_ok os then
        ([EvLoadLibrary "kernel32.dll"; EvGetProcAddress "TerminateProcess";
          EvOpenProcess group; EvTerminateProcess group],
         [EvCloseHandle group; EvFreeLibrary "kernel32.dll"])
      else
        ([EvLoadLibrary "kernel32.dll"; EvGetProcAddress "TerminateProcess";
          EvOpenProcess group],
         [EvFreeLibrary "kernel32.dll"])
    else
      ([EvLoadLibrary "kernel32.dll"; EvGetProcAddress "TerminateProcess"],
       [EvFreeLibrary "kernel32.dll"])
  else ([EvLoadLibrary "kernel32.dll"], []).

Definition cleanupProcesses (GOOS : string) (os : TeardownOutcome)
           (s : Supervisor) : Supervisor * list Event :=
  match childProcess s with
  | Some p =>
      if (0 <? Pid p)%Z then
        let signals :=
          [EvSignal (Pid p) Interrupt; EvSleep 1000; EvSignal (Pid p) Kill] in
        let warning :=
          match kill_error os with
          | Some err =>
              [EvPrint ("警告: 无法终止进程 " +:+ fmt_d (Pid p) +:+ ": " +:+
                        err +:+ nl)]
          | None => []
          end in
        let '(calls, deferred) :=
          if is_windows GOOS && (0 <? processGroup s)%Z
          then terminate_group os (processGroup s)
          else ([], []) in
        (mkSupervisor None 0, signals ++ warning ++ calls ++ deferred)
      else (s, [])
  | None => (s, [])
  end.

Definition safeExecCommand (GOOS : string) (os : TeardownOutcome)
           (start : StartOutcome) (name : string) (args : list string)
           (s : Supervisor) : Supervisor * option error * list Event :=
  let '(s, torn) := cleanupProcesses GOOS os s in
  let spawn := EvStart name args (is_windows GOOS) in
  match start with
  | StartFails err => (s, Some err, torn ++ [spawn])
  | Started pid =>
      let s := mkSupervisor (Some (mkProcess (Zpos pid))) (processGroup s) in
      let s :=
        if is_windows GOOS then mkSupervisor (childProcess s) (Zpos pid)
        else s in
      (s, None, torn ++ [spawn])
  end.

(** The watcher goroutine (lines 205-211), once [cmd.Wait] has returned
    and it holds [mu]. *)
Definition watcher (s : Supervisor) : Supervisor := mkSupervisor None 0.

(** [openBrowser] (lines 256-264). *)
Definition openBrowser (GOOS : string) (os : TeardownOutcome)
           (start : StartOutcome) (url : string) (s : Supervisor)
  : Supervisor * option error * list Event :=
  if String.eqb GOOS "windows" then
    safeExecCommand GOOS os start "cmd" ["/c"; "start"; "/b"; url] s
  else (s, Some ("不支持的操作系统: " +:+ GOOS), []).

(** [cleanup] (lines 267-271). *)
Definition cleanup (GOOS : string) (os : TeardownOutcome) (s : Supervisor)
  : Supervisor * list Event :=
  cleanupProcesses GOOS os s.

(** The operations of the supervisor, each with what the operating system
    answers while it runs. *)
Inductive SupervisorOp :=
| Launch (name : string) (args : list string) (start : StartOutcome)
         (os : TeardownOutcome)
| Teardown (os : TeardownOutcome)
| WatcherFires.

Definition supervisor_step (GOOS : string) (op : SupervisorOp)
           (s : Supervisor) : Supervisor * list Event :=
  match op with
  | Launch name args start os =>
      let '(s', _, events) := safeExecCommand GOOS os start name args s in
      (s', events)
  | Teardown os => cleanup GOOS os s
  | WatcherFires => (watcher s, [])
  end.

(** The states the supervisor can be in after any sequence of operations. *)
Inductive reachable (GOOS : string) : Supervisor -> Prop :=
| reachable_initial : reachable GOOS initial_Supervisor
| reachable_step s op :
    reachable GOOS s -> reachable GOOS (fst (supervisor_step GOOS op s)).

(** The handles tracked in a state. *)
Definition tracked (s : Supervisor) : list Process :=
  match childProcess s with
  | Some p => [p]
  | None => []
  end.

(** ** Shutdown: the end of [main] (lines 275 and 316-320)

    [main] registers [cleanup] with [defer] on entry.  A deferred call runs
    when the surrounding function returns; [os.Exit] ends the program at
    once, and deferred calls are not run. *)

Inductive Completion :=
| Returns
| Exits (code : Z).

Definition with_defer (deferred : Supervisor -> Supervisor * list Event)
           (body : Supervisor -> Supervisor * list Event * Completion)
           (s : Supervisor) : Supervisor * list Event * Completion :=
  let '(s1, events, c) := body s in
  match c with
  | Returns =>
      let '(s2, late) := deferred s1 in (s2, events ++ late, Returns)
  | Exits code => (s1, events, Exits code)
  end.

(** Lines 316-320, entered when [scanner.Scan] has returned. *)
Definition shutdown_body (s : Supervisor)
  : Supervisor * list Event * Completion :=
  (s,
   [EvPrint ("程序正在关闭..." +:+ nl); EvClose "serverQuit"; EvSleep 500;
    EvExit 0],
   Exits 0).

(** [main] from the moment the operator's line has been read, in the
    supervisor state [s] of that moment. *)
Definition main_shutdown (GOOS : string) (os : TeardownOutcome)
           (s : Supervisor) : Supervisor * list Event * Completion :=
  with_defer (cleanup GOOS os) shutdown_body s.

(** The start of [main] (lines 277-280): the config is loaded into the
    zero-valued [config]; an error is printed and [main] goes on. *)
Definition main_startup (file : FileState) : Config * list Event :=
  let '(config, err) := readConfig file zero_Config in
  match err with
  | Some e =>
      (config,
       [EvPrint ("读取配置文件错误: " +:+ e +:+ nl);
        EvPrint ("将允许通过网页输入配置，服务器使用默认端口 8080..." +:+ nl)])
  | None => (config, [])
  end.

(** The address the listener binds (line 287). *)
Definition serverAddr (config : Config) : string := ":" +:+ ServerPort config.

(** ** The command object in the spec's words

    [{firewall: {dmz: {enable, dest_ip, wan_port: "0", dest_ip6},
      ipv6_firewall: {enable}}, method: "set"}], each object given by the
    list of its members. *)
Definition object (members : list (string * gvalue)) : gvalue :=
  VMap (list_to_map members).

Definition spec_command (settings : Config) : gvalue :=
  object [
    ("firewall", object [
       ("dmz", object [
          ("enable", VString (DmzEnable settings));
          ("dest_ip", VString (DmzDestIP settings));
          ("wan_port", VString "0");
          ("dest_ip6", VString (DmzDestIP6 settings))]);
       ("ipv6_firewall", object [
          ("enable", VString (IPv6FirewallEnable settings))])]);
    ("method", VString "set")].

(** The member names of an object, and the value found along a path. *)
Definition keys (v : gvalue) : gset string :=
  match v with
  | VMap m => dom m
  | VString _ => ∅
  end.

Fixpoint at_path (path : list string) (v : gvalue) : option gvalue :=
  match path with
  | [] => Some v
  | k :: rest =>
      match v with
      | VMap m =>
          match m !! k with
          | Some v' => at_path rest v'
          | None => None
          end
      | VString _ => None
      end
  end.

(** ** The page and the settings in the spec's words *)

(** The text the template produces for its data. *)
Definition node_text `{Runtime} (data : Config) (n : Node) : string :=
  match n with
  | Text s => s
  | Action field => attrescaper (field data)
  end.

Definition render `{Runtime} (t : list Node) (data : Config) : string :=
  fold_right (fun n rest => node_text data n +:+ rest) "" t.

(** One text input of the form with its [value] attribute filled in. *)
Definition input_html (name placeholder value : string) : string :=
  tabs 4 +:+ "<input type=" +:+ quoted "text" +:+
  " name=" +:+ quoted name +:+
  " placeholder=" +:+ quoted placeholder +:+
  " value=" +:+ dq +:+ value +:+ dq +:+ "><br>" +:+ nl.

(** The lower case of a string of ASCII bytes, said byte by byte: [out]
    is as long as [s], a byte from "A" to "Z" (65 to 90) of [s] stands in
    [out] as the byte 32 higher, and every other byte stands as it is. *)
Definition ascii_only (s : string) : Prop :=
  forall i c, String.get i s = Some c -> nat_of_ascii c < 128.

Definition lowercase_of (s out : string) : Prop :=
  String.length out = String.length s /\
  forall i c,
    String.get i s = Some c ->
    exists d,
      String.get i out = Some d /\
      (65 <= nat_of_ascii c <= 90 -> nat_of_ascii d = nat_of_ascii c + 32) /\
      (~ (65 <= nat_of_ascii c <= 90) -> d = c).

(** The DMZ flag the spec asks for. *)
Definition valid_flag (s : string) : Prop := s = "0" \/ s = "1".

(** The warning line written for a rejected DMZ flag. *)
Definition dmz_warning (kept : string) : string :=
  "DMZ启用状态必须为0或1，已保持原有值: " +:+ kept +:+ "<br>".

(** What holds of the tracked pair in every reachable state: a tracked
    process has a positive id, and without one the group id is 0. *)
Definition supervisor_inv (s : Supervisor) : Prop :=
  match childProcess s with
  | Some p => (0 < Pid p)%Z
  | None => processGroup s = 0%Z
  end.

(** The teardown signals owed to the tracked process, if any. *)
Definition teardown_signals (s : Supervisor) : list Event :=
  flat_map (fun p =>
              [EvSignal (Pid p) Interrupt; EvSleep 1000; EvSignal (Pid p) Kill])
           (tracked s).

(** ** An instance of [Runtime]

    It agrees with the Go libraries on ASCII text that needs no JSON
    escape: member names are written in sorted order, strings between
    double quotes, and the attribute escaper replaces the seven characters
    of [html/template]'s replacement table. *)

Fixpoint insert_by_key (k v : string) (l : list (string * string))
  : list (string * string) :=
  match l with
  | [] => [(k, v)]
  | (k', v') :: rest =>
      if String.leb k k' then (k, v) :: l
      else (k', v') :: insert_by_key k v rest
  end.

Definition sort_by_key (l : list (string * string))
  : list (string * string) :=
  fold_right (fun kv acc => insert_by_key kv.1 kv.2 acc) [] l.

Fixpoint encode (v : gvalue) : string :=
  match v with
  | VString s => quoted s
  | VMap m =>
      "{" +:+
      String.concat ","
        (map (fun kv => quoted kv.1 +:+ ":" +:+ kv.2)
             (sort_by_key (map_to_list (encode <$> m)))) +:+
      "}"
  end.

Definition escape_attr_byte (c : ascii) : string :=
  match byte_val c with
  | 0 => String "239"%char (String "191"%char (String "189"%char ""))
  | 34 => "&#34;"
  | 38 => "&amp;"
  | 39 => "&#39;"
  | 43 => "&#43;"
  | 60 => "&lt;"
  | 62 => "&gt;"
  | _ => String c ""
  end.

Fixpoint escape_attr (s : string) : string :=
  match s with
  | EmptyString => EmptyString
  | String c r => escape_attr_byte c +:+ escape_attr r
  end.

Definition ascii_Runtime : Runtime :=
  {| unicode_ToLower := string_map lower_byte;
     json_Marshal := fun v => Ok (encode v);
     attrescaper := escape_attr;
     Marshal_total := fun v => ex_intro _ (encode v) eq_refl |}.

(** The settings after a form submission, in the spec's words: the
    submitted values stored as they are, the IPv6 flag in lower case, the
    DMZ flag only if it is "0" or "1", the server port untouched. *)
Definition accepts_dmz (v : string) : bool :=
  String.eqb v "0" || String.eqb v "1".

Definition submitted `{Runtime} (c : Config) (r : Request) : Config :=
  mkConfig (FormValue r "router_ip") (FormValue r "stok")
           (strings_ToLower (FormValue r "ipv6_firewall_enable"))
           (FormValue r "dmz_dest_ip") (FormValue r "dmz_dest_ip6")
           (ServerPort c)
           (if accepts_dmz (FormValue r "dmz_enable")
            then FormValue r "dmz_enable" else DmzEnable c).

(** ** Concrete inputs used in the examples below *)

(** The settings [main] starts with when there is no config file. *)
Definition default_config : Config := mkConfig "" "" "" "" "" "8080" "1".

Definition post_form (fields : list (string * string)) : Request :=
  mkRequest "POST" (list_to_map (map (fun kv => (kv.1, [kv.2])) fields)).

Definition get_request : Request := mkRequest "GET" ∅.

(** A submission with the DMZ flag "5". *)
Definition bad_dmz_request : Request :=
  post_form [("router_ip", "192.168.0.1"); ("stok", "abc");
             ("ipv6_firewall_enable", "ON"); ("dmz_enable", "5");
             ("dmz_dest_ip", "192.168.0.102"); ("dmz_dest_ip6", "240e::2")].

(** A router that answers 200, and one that cannot be reached. *)
Definition router_ok : Network := fun _ => PostResponse 200 (ReadOk "ok").
Definition router_down : Network :=
  fun _ => PostFails "dial tcp 192.168.0.1:80: connect: no route to host".

(** A config file [{"dmz_enable": "5"}]. *)
Definition file_dmz_5 : FileState :=
  Contents (WellFormed (JObj [("dmz_enable", JStr "5")])).

(** A config file [{"server_port": "9090", "dmz_enable": 0}]: the flag
    written as a number instead of a string. *)
Definition file_flag_number : FileState :=
  Contents (WellFormed (JObj [("server_port", JStr "9090");
                              ("dmz_enable", JNumber "0")])).

(** A supervisor on Windows that tracks the process 4242. *)
Definition tracking_4242 : Supervisor :=
  mkSupervisor (Some (mkProcess 4242)) 4242.

Definition os_quiet : TeardownOutcome := mkTeardown None true true true.

(** ** More of the program: the success page, the routes, request
       sequences, and the background task of [main] *)

(** One setting, read by the field it belongs to. *)
Definition get_field (f : Field) (c : Config) : string :=
  match f with
  | FRouterIP => RouterIP c
  | FStok => Stok c
  | FIPv6FirewallEnable => IPv6FirewallEnable c
  | FDmzDestIP => DmzDestIP c
  | FDmzDestIP6 => DmzDestIP6 c
  | FServerPort => ServerPort c
  | FDmzEnable => DmzEnable c
  end.

(** The settings as [readConfig] leaves them before the file is decoded. *)
Definition with_defaults (c : Config) : Config :=
  set_DmzEnable "1" (set_ServerPort "8080" c).

(** A config file that spells out each of the seven settings of [c] as a
    string under its tag. *)
Definition config_object (c : Config) : jvalue :=
  JObj (map (fun f => (tag f, JStr (get_field f c))) all_fields).

(** A member that [json.Unmarshal] can take without a type error: its key
    names no field, or its value is a string or [null]. *)
Definition storable (kv : string * jvalue) : bool :=
  match field_of_key kv.1 with
  | None => true
  | Some _ =>
      match kv.2 with
      | JStr _ | JNull => true
      | _ => false
      end
  end.

(** [successHandler] (lines 168-170): [fmt.Fprintln] of the fixed text. *)
Definition successHandler (w : ResponseWriter) (r : Request)
  : ResponseWriter :=
  Write ("操作成功！可关闭浏览器返回程序，按Enter退出。" +:+ nl) w.

(** The routes registered on the default mux (lines 282-283).  A pattern
    that ends in a slash names a subtree and matches every path it is a
    prefix of, any other pattern matches the equal path only, and the
    longest matching pattern wins. *)
Inductive Handler := FormHandler | SuccessHandler.

Definition registered : list (string * Handler) :=
  [("/", FormHandler); ("/success", SuccessHandler)].

Fixpoint ends_in_slash (p : string) : bool :=
  match p with
  | EmptyString => false
  | String c EmptyString => byte_val c =? 47
  | String _ r => ends_in_slash r
  end.

Definition pattern_matches (pattern path : string) : bool :=
  if ends_in_slash pattern then String.prefix pattern path
  else String.eqb pattern path.

Fixpoint mux_lookup (patterns : list (string * Handler)) (path : string)
  : option (string * Handler) :=
  match patterns with
  | [] => None
  | (p, h) :: rest =>
      let best := mux_lookup rest path in
      if pattern_matches p path then
        match best with
        | Some (p', h') =>
            if String.length p <? String.length p' then Some (p', h')
            else Some (p, h)
        | None => Some (p, h)
        end
      else best
  end.

(** The elements of a path: the pieces between its slashes. *)
Fixpoint segments (s : string) : list string :=
  match s with
  | EmptyString => [""]
  | String c r =>
      if byte_val c =? 47 then "" :: segments r
      else
        match segments r with
        | seg :: rest => String c seg :: rest
        | [] => [String c ""]
        end
  end.

(** [path.Clean] on a rooted path: empty and [.] elements go, a [..]
    element goes together with the element before it, or alone at the
    root.  [kept] holds the elements kept so far, the last one first. *)
Definition clean_step (kept : list string) (element : string) : list string :=
  if String.eqb element "" || String.eqb element "." then kept
  else if String.eqb element ".." then tail kept
  else element :: kept.

Definition path_Clean (p : string) : string :=
  "/" +:+ String.concat "/" (rev (fold_left clean_step (segments p) [])).

(** [cleanPath] of the mux: the path made rooted and cleaned, with its
    trailing slash put back. *)
Definition cleanPath (p : string) : string :=
  match p with
  | EmptyString => "/"
  | String c _ =>
      let p := if byte_val c =? 47 then p else "/" +:+ p in
      let np := path_Clean p in
      if ends_in_slash p && negb (String.eqb np "/") then np +:+ "/"
      else np
  end.

Definition registered_exactly (patterns : list (string * Handler))
           (path : string) : bool :=
  existsb (fun ph => String.eqb ph.1 path) patterns.

(** [shouldRedirect]: the path is not registered but the subtree of that
    name is. *)
Definition shouldRedirect (patterns : list (string * Handler))
           (path : string) : bool :=
  if registered_exactly patterns path then false
  else if String.eqb path "" then false
  else if registered_exactly patterns (path +:+ "/")
       then negb (ends_in_slash path)
       else false.

(** What becomes of a request: a handler of the program runs, or the mux
    answers by itself with a redirect (301) to another path, with 404, or
    with 400 for the request target [*]. *)
Inductive Served :=
| ByHandler (result : Config * ResponseWriter * list PostRequest)
| MuxRedirect (location : string)
| MuxNotFound
| MuxBadRequest.

Definition run_route `{Runtime} (config : Config) (path : string)
           (r : Request) (net : Network) : Served :=
  match mux_lookup registered path with
  | Some (_, FormHandler) => ByHandler (serve config r net)
  | Some (_, SuccessHandler) =>
      ByHandler
        (config,
         sent_body r (finishRequest (successHandler new_ResponseWriter r)),
         [])
  | None => MuxNotFound
  end.

(** One request for [path] as the default mux serves it: a CONNECT
    request is matched on its path as it is; for any other method a path
    that differs from its cleaned form is answered with a redirect to the
    cleaned form, and no handler runs. *)
Definition serve_path `{Runtime} (config : Config) (path : string)
           (r : Request) (net : Network) : Served :=
  if String.eqb path "*" then MuxBadRequest
  else if String.eqb (Method r) "CONNECT" then
    if shouldRedirect registered path then MuxRedirect (path +:+ "/")
    else run_route config path r net
  else
    let cleaned := cleanPath path in
    if shouldRedirect registered cleaned then MuxRedirect (cleaned +:+ "/")
    else if negb (String.eqb cleaned path) then MuxRedirect cleaned
    else run_route config path r net.

(** Requests to the form route served one after the other, each with the
    router behaviour of its moment: the final settings, the responses and
    all router calls, in order. *)
Fixpoint serve_all `{Runtime} (config : Config)
         (requests : list (Request * Network))
  : Config * list ResponseWriter * list PostRequest :=
  match requests with
  | [] => (config, [], [])
  | (r, net) :: rest =>
      let '(config1, w, posts) := serve config r net in
      let '(config2, ws, posts') := serve_all config1 rest in
      (config2, w :: ws, posts ++ posts')
  end.

Definition is_post (r : Request) : bool := String.eqb (Method r) MethodPost.

(** [strings.Contains] as a test. *)
Fixpoint strings_Contains (s sub : string) : bool :=
  String.prefix sub s ||
  match s with
  | EmptyString => false
  | String _ r => strings_Contains r sub
  end.

(** The background task of [main] up to the listener (lines 287-296). *)
Definition serverURL (config : Config) : string :=
  "http://localhost:" +:+ ServerPort config.

Definition background_start (GOOS : string) (os : TeardownOutcome)
           (start : StartOutcome) (config : Config) (s : Supervisor)
  : Supervisor * list Event :=
  let '(s', err, events) := openBrowser GOOS os start (serverURL config) s in
  (s',
   [EvPrint ("服务器启动，访问 " +:+ serverURL config +:+ nl)] ++
   events ++
   [match err with
    | Some e =>
        EvPrint ("自动打开浏览器失败，请手动访问: " +:+ serverURL config +:+ nl +:+
                 "错误原因: " +:+ e +:+ nl)
    | None =>
        EvPrint ("已自动打开默认浏览器，若未弹出请手动访问上述地址" +:+ nl)
    end]).

(** What the background task prints once [srv.ListenAndServe] has
    returned with [err] (lines 305-309). *)
Definition listener_finished (err : option error) (config : Config)
  : list Event :=
  match err with
  | Some e =>
      if negb (strings_Contains e "closed") then
        [EvPrint ("服务器错误: " +:+ e +:+ nl);
         EvPrint ("提示：端口 " +:+ ServerPort config +:+
                  " 可能已被占用，请修改 config.json 中的 server_port 字段（如 8081）"
                  +:+ nl)]
      else []
  | None => []
  end.

(** The calls that exist on Windows only. *)
Definition is_windows_call (e : Event) : bool :=
  match e with
  | EvLoadLibrary _ | EvGetProcAddress _ | EvOpenProcess _
  | EvTerminateProcess _ | EvCloseHandle _ | EvFreeLibrary _ => true
  | _ => false
  end.

(** * Properties *)

(** ** Strings *)

Lemma append_cons (x : ascii) (a b : string) :
  String x a +:+ b = String x (a +:+ b).
Proof. reflexivity. Qed.

Lemma append_nil_l (a : string) : "" +:+ a = a.
Proof. reflexivity. Qed.

Lemma append_assoc (a b c : string) : (a +:+ b) +:+ c = a +:+ (b +:+ c).
Proof.
  induction a as [|x a IH]; [reflexivity|].
  rewrite !append_cons. now rewrite IH.
Qed.

Lemma append_nil_r (a : string) : a +:+ "" = a.
Proof.
  induction a as [|x a IH]; [reflexivity|].
  rewrite append_cons. now rewrite IH.
Qed.

Lemma Contains_refl (s : string) : Contains s s.
Proof. exists "", "". now rewrite append_nil_l, append_nil_r. Qed.

Lemma Contains_append_l (s t sub : string) :
  Contains s sub -> Contains (s +:+ t) sub.
Proof.
  intros (pre & post & ->). exists pre, (post +:+ t).
  now rewrite !append_assoc.
Qed.

Lemma Contains_append_r (s t sub : string) :
  Contains t sub -> Contains (s +:+ t) sub.
Proof.
  intros (pre & post & ->). exists (s +:+ pre), post.
  now rewrite !append_assoc.
Qed.

Lemma get_string_map (f : ascii -> ascii) (s : string) (i : nat) :
  String.get i (string_map f s) = option_map f (String.get i s).
Proof.
  revert i. induction s as [|a s IH]; intros i; [reflexivity|].
  destruct i; [reflexivity | apply IH].
Qed.

Lemma length_string_map (f : ascii -> ascii) (s : string) :
  String.length (string_map f s) = String.length s.
Proof. induction s as [|a s IH]; simpl; congruence. Qed.

Lemma string_forallb_get (p : ascii -> bool) (s : string) :
  string_forallb p s = true
  <-> forall i c, String.get i s = Some c -> p c = true.
Proof.
  induction s as [|a s IH]; simpl.
  - split; [intros _ i c H; destruct i; discriminate | reflexivity].
  - rewrite andb_true_iff, IH. split.
    + intros [Ha Hs] [|i] c H; [injection H as <-; exact Ha|].
      exact (Hs i c H).
    + intros H. split; [exact (H 0 a eq_refl)|].
      intros i c Hi. exact (H (S i) c Hi).
Qed.

Lemma string_existsb_get (p : ascii -> bool) (s : string) :
  string_existsb p s = false ->
  forall i c, String.get i s = Some c -> p c = false.
Proof.
  induction s as [|a s IH]; simpl.
  - intros _ i c H. destruct i; discriminate.
  - rewrite orb_false_iff. intros [Ha Hs] [|i] c H.
    + now injection H as <-.
    + exact (IH Hs i c H).
Qed.

Lemma is_upper_range (c : ascii) :
  is_upper c = true <-> 65 <= nat_of_ascii c <= 90.
Proof.
  unfold is_upper, byte_val. rewrite andb_true_iff, !Nat.leb_le.
  reflexivity.
Qed.

Lemma is_ascii_byte_range (c : ascii) :
  is_ascii_byte c = true <-> nat_of_ascii c < 128.
Proof. unfold is_ascii_byte, byte_val. apply Nat.ltb_lt. Qed.

Lemma ascii_only_forallb (s : string) :
  string_forallb is_ascii_byte s = true <-> ascii_only s.
Proof.
  rewrite string_forallb_get. unfold ascii_only.
  split; intros H i c Hi; apply is_ascii_byte_range; exact (H i c Hi).
Qed.

Lemma lower_byte_cases (c : ascii) :
  (65 <= nat_of_ascii c <= 90 ->
   nat_of_ascii (lower_byte c) = nat_of_ascii c + 32) /\
  (~ (65 <= nat_of_ascii c <= 90) -> lower_byte c = c).
Proof.
  unfold lower_byte. destruct (is_upper c) eqn:E.
  - apply is_upper_range in E. split; [|tauto].
    intros _. unfold byte_val. apply nat_ascii_embedding. lia.
  - split; [|reflexivity].
    intros H. apply is_upper_range in H. congruence.
Qed.

(** Walk down a concatenation until the piece looked for is at its head. *)
Ltac find_in_page :=
  repeat (first [ apply Contains_append_l, Contains_refl
                | apply Contains_append_r ]).

Lemma accepts_dmz_valid (v : string) : accepts_dmz v = true <-> valid_flag v.
Proof.
  unfold accepts_dmz, valid_flag.
  rewrite orb_true_iff, !String.eqb_eq. reflexivity.
Qed.

Lemma accepts_dmz_invalid (v : string) :
  v <> "0" -> v <> "1" -> accepts_dmz v = false.
Proof.
  intros H0 H1. unfold accepts_dmz.
  apply String.eqb_neq in H0, H1. now rewrite H0, H1.
Qed.

(** ** Config store *)

Lemma readConfig_open_fails (err : error) :
  readConfig (OpenFails err) zero_Config = (default_config, Some err).
Proof. reflexivity. Qed.

Lemma readConfig_read_fails (err : error) :
  readConfig (ReadFails err) zero_Config = (default_config, Some err).
Proof. reflexivity. Qed.

Lemma readConfig_malformed (err : error) :
  readConfig (Contents (Malformed err)) zero_Config
  = (default_config, Some err).
Proof. reflexivity. Qed.

Lemma set_field_ServerPort (f : Field) (v : string) (c : Config) :
  f <> FServerPort -> ServerPort (set_field f v c) = ServerPort c.
Proof. destruct f; intros Hf; try reflexivity; congruence. Qed.

Lemma set_field_DmzEnable (f : Field) (v : string) (c : Config) :
  f <> FDmzEnable -> DmzEnable (set_field f v c) = DmzEnable c.
Proof. destruct f; intros Hf; try reflexivity; congruence. Qed.

(** Members that do not name field [f] leave the projection [get] alone. *)
Lemma decode_members_frame (f : Field) (get : Config -> string) :
  (forall g v c, g <> f -> get (set_field g v c) = get c) ->
  forall ms c saved,
    Forall (fun kv => field_of_key kv.1 <> Some f) ms ->
    get (decode_members ms c saved).1 = get c.
Proof.
  intros Hget ms. induction ms as [|[k v] ms IH]; intros c saved Hms.
  - reflexivity.
  - inversion Hms as [|? ? Hk Hrest]; subst. simpl in Hk. simpl.
    destruct (field_of_key k) as [g|] eqn:Hg.
    + assert (g <> f) by congruence.
      destruct v; simpl; rewrite IH by assumption;
        try reflexivity; now apply Hget.
    + now apply IH.
Qed.

(** A config file that is a JSON object without [server_port] and without
    [dmz_enable] leaves the two defaults in place, whatever else it holds
    and whether or not decoding reports a type error. *)
Lemma readConfig_omitted_defaults (ms : list (string * jvalue)) (c : Config) :
  Forall (fun kv => field_of_key kv.1 <> Some FServerPort) ms ->
  Forall (fun kv => field_of_key kv.1 <> Some FDmzEnable) ms ->
  ServerPort (readConfig (Contents (WellFormed (JObj ms))) c).1 = "8080" /\
  DmzEnable (readConfig (Contents (WellFormed (JObj ms))) c).1 = "1".
Proof.
  intros Hp Hd. unfold readConfig, json_Unmarshal. split.
  - rewrite (decode_members_frame FServerPort ServerPort)
      by (assumption || apply set_field_ServerPort). reflexivity.
  - rewrite (decode_members_frame FDmzEnable DmzEnable)
      by (assumption || apply set_field_DmzEnable). reflexivity.
Qed.

(** Whatever string the file gives for [dmz_enable] is stored as it is,
    and the load reports no error. *)
Lemma readConfig_stores_file_flag (v : string) (c : Config) :
  readConfig (Contents (WellFormed (JObj [("dmz_enable", JStr v)]))) c
  = (set_DmzEnable v (set_ServerPort "8080" c), None).
Proof. reflexivity. Qed.

(** C6 (code bug).  The claim: after every failed config load the settings
    are the defaults, server port "8080", DMZ flag "1", all else empty.
    For the file [{"server_port": "9090", "dmz_enable": 0}] the load
    fails, the number 0 cannot be stored in the string field [DmzEnable],
    yet the port of the file is kept: [main] prints that the server uses
    the default port 8080 and then listens on ":9090". *)
Theorem readConfig_type_error_keeps_fields :
  readConfig file_flag_number zero_Config
  = (mkConfig "" "" "" "" "" "9090" "1",
     Some "json: cannot unmarshal number into Go struct field Config.dmz_enable of type string")
  /\ (readConfig file_flag_number zero_Config).1 <> default_config
  /\ (main_startup file_flag_number).2
     = [EvPrint ("读取配置文件错误: json: cannot unmarshal number into Go struct field Config.dmz_enable of type string" +:+ nl);
        EvPrint ("将允许通过网页输入配置，服务器使用默认端口 8080..." +:+ nl)]
  /\ serverAddr (main_startup file_flag_number).1 = ":9090".
Proof. repeat split; try reflexivity. vm_compute. discriminate. Qed.

(** ** Response writer *)

Lemma written_Write (data : string) (w : ResponseWriter) :
  written (Write data w) = written w +:+ data.
Proof. unfold Write, WriteHeader. now destruct (wroteHeader w). Qed.

Lemma wroteHeader_Write (data : string) (w : ResponseWriter) :
  wroteHeader (Write data w) = true.
Proof.
  unfold Write, WriteHeader. now destruct (wroteHeader w) eqn:E; simpl.
Qed.

Lemma status_Write_fresh (data : string) (w : ResponseWriter) :
  wroteHeader w = false -> status (Write data w) = 200%Z.
Proof. intros E. unfold Write, WriteHeader. now rewrite E. Qed.

Lemma sentHeader_Write_fresh (data : string) (w : ResponseWriter) :
  wroteHeader w = false -> sentHeader (Write data w) = handlerHeader w.
Proof. intros E. unfold Write, WriteHeader. now rewrite E. Qed.

(** Once the header is out, a redirect changes neither the status, nor the
    headers the client has received, nor the body. *)
Lemma http_Redirect_too_late (w : ResponseWriter) (url : string) (code : Z) :
  wroteHeader w = true ->
  status (http_Redirect w url code) = status w /\
  sentHeader (http_Redirect w url code) = sentHeader w /\
  written (http_Redirect w url code) = written w.
Proof.
  intros E. unfold http_Redirect, WriteHeader, Header_Set. simpl.
  now rewrite E.
Qed.

(** On a response with nothing sent yet, a redirect takes effect. *)
Lemma http_Redirect_fresh (w : ResponseWriter) (url : string) (code : Z) :
  wroteHeader w = false ->
  status (http_Redirect w url code) = code /\
  sentHeader (http_Redirect w url code) !! "Location" = Some url /\
  written (http_Redirect w url code) = written w.
Proof.
  intros E. unfold http_Redirect, WriteHeader, Header_Set. simpl.
  rewrite E. simpl. repeat split. apply lookup_insert_eq.
Qed.

(** The HEAD rule touches the body only, and only for HEAD. *)
Lemma sent_body_header (r : Request) (w : ResponseWriter) :
  status (sent_body r w) = status w /\
  sentHeader (sent_body r w) = sentHeader w.
Proof. unfold sent_body. now destruct (String.eqb (Method r) MethodHead). Qed.

Lemma sent_body_other (r : Request) (w : ResponseWriter) :
  Method r <> MethodHead -> sent_body r w = w.
Proof.
  intros HM. unfold sent_body. apply String.eqb_neq in HM. now rewrite HM.
Qed.

Lemma sent_body_post (r : Request) (w : ResponseWriter) :
  Method r = MethodPost -> sent_body r w = w.
Proof. intros HM. apply sent_body_other. rewrite HM. discriminate. Qed.

(** ** Form server *)

Section FormServer.
Context `{RT : Runtime}.

Lemma serve_handler (c : Config) (r : Request) (net : Network) :
  serve c r net
  = ((handler c new_ResponseWriter r net).1.1,
     sent_body r (finishRequest (handler c new_ResponseWriter r net).1.2),
     (handler c new_ResponseWriter r net).2).
Proof.
  unfold serve. now destruct (handler c new_ResponseWriter r net) as [[? ?] ?].
Qed.

Lemma serve_post (c : Config) (r : Request) (net : Network) :
  Method r = MethodPost ->
  serve c r net
  = ((handler c new_ResponseWriter r net).1.1,
     finishRequest (handler c new_ResponseWriter r net).1.2,
     (handler c new_ResponseWriter r net).2).
Proof. intros HM. now rewrite serve_handler, sent_body_post. Qed.

Lemma strings_ToLower_ON : strings_ToLower "ON" = "on".
Proof. reflexivity. Qed.

Lemma strings_ToLower_on : strings_ToLower "on" = "on".
Proof. reflexivity. Qed.

(** The [switch] on the IPv6 flag stores the lower-cased value in each of
    its three arms. *)
Lemma ipv6_switch (v : string) (c : Config) :
  (if String.eqb v "on" then set_IPv6FirewallEnable "on" c
   else if String.eqb v "off" then set_IPv6FirewallEnable "off" c
   else set_IPv6FirewallEnable v c)
  = set_IPv6FirewallEnable v c.
Proof.
  destruct (String.eqb_spec v "on") as [->|_]; [reflexivity|].
  destruct (String.eqb_spec v "off") as [->|_]; reflexivity.
Qed.

(** What a POST does, in one equation. *)
Lemma handler_post (c : Config) (w : ResponseWriter) (r : Request)
      (net : Network) :
  Method r = MethodPost ->
  handler c w r net
  = (submitted c r,
     (if (sendRequest (submitted c r) net).1.1
      then http_Redirect
             (if accepts_dmz (FormValue r "dmz_enable") then w
              else Write (dmz_warning (DmzEnable c)) w)
             "/success" StatusSeeOther
      else Write ("操作失败: " +:+ (sendRequest (submitted c r) net).1.2)
             (if accepts_dmz (FormValue r "dmz_enable") then w
              else Write (dmz_warning (DmzEnable c)) w)),
     (sendRequest (submitted c r) net).2).
Proof.
  intros HM. unfold handler. rewrite HM, String.eqb_refl.
  rewrite ipv6_switch. unfold submitted, dmz_warning.
  fold (accepts_dmz (FormValue r "dmz_enable")).
  destruct (accepts_dmz (FormValue r "dmz_enable"));
    cbv beta iota zeta delta
      [set_RouterIP set_Stok set_IPv6FirewallEnable set_DmzEnable
       set_DmzDestIP set_DmzDestIP6 RouterIP Stok IPv6FirewallEnable
       DmzDestIP DmzDestIP6 ServerPort DmzEnable];
    match goal with
    | |- context [sendRequest ?c0 net] =>
        destruct (sendRequest c0 net) as [[ok msg] posts]
    end; reflexivity.
Qed.

(** Every other method renders the form and leaves the settings alone. *)
Lemma handler_get (c : Config) (w : ResponseWriter) (r : Request)
      (net : Network) :
  Method r <> MethodPost ->
  handler c w r net = (c, Execute tmpl w c, []).
Proof.
  intros HM. unfold handler. apply String.eqb_neq in HM. now rewrite HM.
Qed.

(** The router client makes one call, built from the settings it is given. *)
Lemma sendRequest_posts (c : Config) (net : Network) :
  exists body,
    json_Marshal (requestBody c) = Ok body /\
    (sendRequest c net).2 = [mkPost (request_url c) "application/json" body].
Proof.
  destruct (Marshal_total (requestBody c)) as [body Hb].
  exists body. split; [assumption|].
  unfold sendRequest. rewrite Hb.
  destruct (net _) as [err|code [data|err]]; reflexivity.
Qed.

(** A form submission keeps a valid DMZ flag valid. *)
Lemma handler_keeps_valid_flag (c : Config) (w : ResponseWriter)
      (r : Request) (net : Network) :
  valid_flag (DmzEnable c) -> valid_flag (DmzEnable (handler c w r net).1.1).
Proof.
  intros Hv. destruct (String.eqb_spec (Method r) MethodPost) as [HM|HM].
  - rewrite handler_post by assumption. simpl.
    destruct (accepts_dmz _) eqn:E; [now apply accepts_dmz_valid | assumption].
  - now rewrite handler_get.
Qed.

(** C2.  A POST whose [dmz_enable] is neither "0" nor "1" leaves
    [DmzEnable] as it was, writes the warning line naming the retained
    value into the response body, and still calls the router client: one
    request goes out, built from the updated settings. *)
Theorem handler_rejects_invalid_dmz_enable
        (c : Config) (w : ResponseWriter) (r : Request) (net : Network) :
  Method r = MethodPost ->
  FormValue r "dmz_enable" <> "0" ->
  FormValue r "dmz_enable" <> "1" ->
  DmzEnable (handler c w r net).1.1 = DmzEnable c /\
  Contains (written (handler c w r net).1.2)
           ("DMZ启用状态必须为0或1，已保持原有值: " +:+ DmzEnable c +:+ "<br>") /\
  (exists rest,
      written (handler c w r net).1.2
      = written w +:+ dmz_warning (DmzEnable c) +:+ rest) /\
  (exists body,
      json_Marshal (requestBody (handler c w r net).1.1) = Ok body /\
      (handler c w r net).2
      = [mkPost (request_url (handler c w r net).1.1) "application/json"
                body]).
Proof.
  intros HM H0 H1. rewrite handler_post by assumption.
  pose proof (accepts_dmz_invalid _ H0 H1) as Hrej.
  cbn [fst snd]. rewrite Hrej.
  assert (Hbody : exists rest,
             written
               (if (sendRequest (submitted c r) net).1.1
                then http_Redirect (Write (dmz_warning (DmzEnable c)) w)
                       "/success" StatusSeeOther
                else Write ("操作失败: " +:+
                            (sendRequest (submitted c r) net).1.2)
                       (Write (dmz_warning (DmzEnable c)) w))
             = written w +:+ dmz_warning (DmzEnable c) +:+ rest).
  { destruct ((sendRequest (submitted c r) net).1.1).
    - exists "".
      destruct (http_Redirect_too_late (Write (dmz_warning (DmzEnable c)) w)
                  "/success" StatusSeeOther (wroteHeader_Write _ _))
        as (_ & _ & ->).
      now rewrite written_Write, append_nil_r.
    - eexists. rewrite !written_Write, append_assoc. reflexivity. }
  repeat split.
  - unfold submitted. simpl. now rewrite Hrej.
  - destruct Hbody as [rest ->]. apply Contains_append_r, Contains_append_l.
    apply Contains_refl.
  - exact Hbody.
  - apply sendRequest_posts.
Qed.

(** The page: [Execute] appends to the body what the template renders. *)
Lemma Execute_written (t : list Node) (w : ResponseWriter) (c : Config) :
  written (Execute t w c) = written w +:+ render t c.
Proof.
  unfold Execute. revert w. induction t as [|n t IH]; intros w.
  - simpl. now rewrite append_nil_r.
  - cbn [fold_left render fold_right]. rewrite IH.
    fold (render t c). rewrite <- append_assoc. f_equal.
    destruct n; apply written_Write.
Qed.

Lemma render_app (a b : list Node) (c : Config) :
  render (a ++ b) c = render a c +:+ render b c.
Proof.
  induction a as [|n a IH]; [reflexivity|].
  cbn [app render fold_right]. fold (render (a ++ b) c). fold (render a c).
  now rewrite IH, append_assoc.
Qed.

Lemma render_input_line (name placeholder : string)
      (field : Config -> string) (c : Config) :
  render (input_line name placeholder field) c
  = input_html name placeholder (attrescaper (field c)).
Proof.
  unfold input_line, input_html, render. cbn [fold_right node_text].
  now rewrite !append_assoc, append_nil_r.
Qed.

(** Each of the six inputs occurs in the rendered page with the escaped
    value of its field. *)
Lemma render_tmpl_inputs (c : Config) :
  Contains (render tmpl c)
           (input_html "router_ip" "例如: 192.168.0.1"
                       (attrescaper (RouterIP c))) /\
  Contains (render tmpl c)
           (input_html "stok" "路由器认证令牌" (attrescaper (Stok c))) /\
  Contains (render tmpl c)
           (input_html "ipv6_firewall_enable" "on或off"
                       (attrescaper (IPv6FirewallEnable c))) /\
  Contains (render tmpl c)
           (input_html "dmz_enable" "0或1" (attrescaper (DmzEnable c))) /\
  Contains (render tmpl c)
           (input_html "dmz_dest_ip" "例如: 192.168.0.102"
                       (attrescaper (DmzDestIP c))) /\
  Contains (render tmpl c)
           (input_html "dmz_dest_ip6" "例如: 240e:370:xx"
                       (attrescaper (DmzDestIP6 c))).
Proof.
  unfold tmpl. rewrite !render_app. rewrite !render_input_line.
  repeat split; find_in_page.
Qed.

Lemma FormValue_insert (method key k : string) (v : string)
      (form : gmap string (list string)) :
  FormValue (mkRequest method (<[key := [v]]> form)) k
  = if decide (key = k) then v else FormValue (mkRequest method form) k.
Proof.
  unfold FormValue. simpl. rewrite lookup_insert.
  destruct (decide (key = k)); reflexivity.
Qed.

Lemma sendRequest_router_ok (c : Config) :
  (sendRequest c router_ok).1 = (true, "ok").
Proof.
  unfold sendRequest.
  destruct (Marshal_total (requestBody c)) as [body ->]. reflexivity.
Qed.

(** With a valid DMZ flag nothing is written before the redirect, and a
    successful call is answered by 303 with Location [/success]. *)
Lemma handler_success_redirect (c : Config) (r : Request) (net : Network) :
  Method r = MethodPost ->
  valid_flag (FormValue r "dmz_enable") ->
  (sendRequest (serve c r net).1.1 net).1.1 = true ->
  status (serve c r net).1.2 = 303%Z /\
  sentHeader (serve c r net).1.2 !! "Location" = Some "/success" /\
  written (serve c r net).1.2 = "".
Proof.
  intros HM Hv. rewrite serve_post by assumption.
  rewrite handler_post by assumption.
  apply accepts_dmz_valid in Hv. rewrite Hv. cbn [fst snd].
  intros ->. repeat split.
Qed.

(** A failed call is answered in the body, after the warning if there is
    one, with status 200 and no Location header. *)
Lemma handler_failure_message (c : Config) (r : Request) (net : Network) :
  Method r = MethodPost ->
  (sendRequest (serve c r net).1.1 net).1.1 = false ->
  HasPrefix ("操作失败: " +:+ (sendRequest (serve c r net).1.1 net).1.2)
            "操作失败" /\
  written (serve c r net).1.2
  = (if accepts_dmz (FormValue r "dmz_enable") then ""
     else dmz_warning (DmzEnable c))
    +:+ "操作失败: " +:+ (sendRequest (serve c r net).1.1 net).1.2 /\
  status (serve c r net).1.2 = 200%Z /\
  sentHeader (serve c r net).1.2 !! "Location" = None.
Proof.
  intros HM. rewrite serve_post by assumption.
  rewrite handler_post by assumption.
  cbn [fst snd]. intros ->. split.
  { exists (": " +:+ (sendRequest (submitted c r) net).1.2). reflexivity. }
  destruct (accepts_dmz (FormValue r "dmz_enable")); repeat split.
Qed.

(** C3 (code bug).  The claim: whenever the router client reports success
    the response is a 303 redirect to [/success].  For a submission with
    [dmz_enable=5] and a router that answers 200, the warning line is
    written first, which sends the header with status 200; the redirect
    that follows comes too late: the client receives status 200, no
    Location header, and the warning line as the whole body. *)
Theorem handler_redirect_lost_after_warning :
  (sendRequest (serve default_config bad_dmz_request router_ok).1.1
               router_ok).1.1 = true /\
  status (serve default_config bad_dmz_request router_ok).1.2 = 200%Z /\
  sentHeader (serve default_config bad_dmz_request router_ok).1.2
    !! "Location" = None /\
  written (serve default_config bad_dmz_request router_ok).1.2
  = "DMZ启用状态必须为0或1，已保持原有值: 1<br>".
Proof.
  unfold serve. rewrite handler_post by reflexivity. cbn [fst snd].
  rewrite !sendRequest_router_ok. repeat split.
Qed.

(** On a string of ASCII bytes [strings.ToLower] gives the lower case as
    [lowercase_of] says it; on any other string it is the library's
    rune-wise mapping. *)
Lemma strings_ToLower_ascii (s : string) :
  ascii_only s -> lowercase_of s (strings_ToLower s).
Proof.
  intros Ha. unfold strings_ToLower.
  rewrite (proj2 (ascii_only_forallb s) Ha).
  destruct (string_existsb is_upper s) eqn:E.
  - split; [apply length_string_map|].
    intros i c Hi. exists (lower_byte c).
    rewrite get_string_map, Hi. split; [reflexivity|].
    apply lower_byte_cases.
  - split; [reflexivity|].
    intros i c Hi. exists c. split; [exact Hi|]. split; [|reflexivity].
    intros Hup. apply is_upper_range in Hup.
    rewrite (string_existsb_get _ _ E i c Hi) in Hup. discriminate.
Qed.

Lemma strings_ToLower_other (s : string) :
  ~ ascii_only s -> strings_ToLower s = unicode_ToLower s.
Proof.
  intros Hn. unfold strings_ToLower.
  destruct (string_forallb is_ascii_byte s) eqn:E; [|reflexivity].
  apply ascii_only_forallb in E. contradiction.
Qed.

(** C7.  After a POST the stored IPv6 firewall flag is the lower case of
    the submitted [ipv6_firewall_enable], whatever the value: no value is
    turned away.  For a value of ASCII bytes the stored flag has the same
    length, with each byte from "A" to "Z" replaced by its lower-case
    letter and every other byte kept; for any other value it is what
    [strings.Map(unicode.ToLower, _)] of the Go library returns.  Two
    submissions that differ only in "ON" against "on" leave the same
    settings; "ON" is stored as "on", "OFF" as "off" and "Auto", which is
    neither, as "auto". *)
Theorem handler_ipv6_flag_lowercase
        (c : Config) (w : ResponseWriter) (r : Request) (net : Network)
        (form : gmap string (list string)) :
  Method r = MethodPost ->
  (ascii_only (FormValue r "ipv6_firewall_enable") ->
   lowercase_of (FormValue r "ipv6_firewall_enable")
                (IPv6FirewallEnable (handler c w r net).1.1)) /\
  (~ ascii_only (FormValue r "ipv6_firewall_enable") ->
   IPv6FirewallEnable (handler c w r net).1.1
   = unicode_ToLower (FormValue r "ipv6_firewall_enable")) /\
  (handler c w (mkRequest MethodPost
                          (<["ipv6_firewall_enable" := ["ON"]]> form)) net).1.1
  = (handler c w (mkRequest MethodPost
                            (<["ipv6_firewall_enable" := ["on"]]> form)) net).1.1 /\
  IPv6FirewallEnable
    (handler c w (mkRequest MethodPost
                            (<["ipv6_firewall_enable" := ["ON"]]> form)) net).1.1
  = "on" /\
  IPv6FirewallEnable
    (handler c w (mkRequest MethodPost
                            (<["ipv6_firewall_enable" := ["OFF"]]> form)) net).1.1
  = "off" /\
  IPv6FirewallEnable
    (handler c w (mkRequest MethodPost
                            (<["ipv6_firewall_enable" := ["Auto"]]> form)) net).1.1
  = "auto".
Proof.
  intros HM. rewrite !handler_post by (assumption || reflexivity).
  cbn [fst snd]. unfold submitted. rewrite !FormValue_insert.
  cbn [IPv6FirewallEnable].
  split; [apply strings_ToLower_ascii|].
  split; [apply strings_ToLower_other|].
  repeat split.
Qed.

(** C10.  When the router client call of a POST fails, the settings keep
    what was submitted: router address, token, lower-cased IPv6 flag, the
    DMZ flag if it was valid, both DMZ targets.  The failure message is
    written, and a GET served afterwards leaves the settings alone and
    renders the form with these values in the [value] attributes. *)
Theorem handler_failure_keeps_submitted
        (c : Config) (w : ResponseWriter) (r : Request) (net : Network) :
  Method r = MethodPost ->
  (sendRequest (handler c w r net).1.1 net).1.1 = false ->
  RouterIP (handler c w r net).1.1 = FormValue r "router_ip" /\
  Stok (handler c w r net).1.1 = FormValue r "stok" /\
  IPv6FirewallEnable (handler c w r net).1.1
  = strings_ToLower (FormValue r "ipv6_firewall_enable") /\
  (valid_flag (FormValue r "dmz_enable") ->
   DmzEnable (handler c w r net).1.1 = FormValue r "dmz_enable") /\
  DmzDestIP (handler c w r net).1.1 = FormValue r "dmz_dest_ip" /\
  DmzDestIP6 (handler c w r net).1.1 = FormValue r "dmz_dest_ip6" /\
  (exists before,
      written (handler c w r net).1.2
      = before +:+ "操作失败: " +:+
        (sendRequest (handler c w r net).1.1 net).1.2) /\
  forall (r' : Request) (net' : Network),
    Method r' = "GET" ->
    (serve (handler c w r net).1.1 r' net').1.1 = (handler c w r net).1.1 /\
    written (serve (handler c w r net).1.1 r' net').1.2
    = render tmpl (handler c w r net).1.1 /\
    Contains (written (serve (handler c w r net).1.1 r' net').1.2)
             (input_html "router_ip" "例如: 192.168.0.1"
                         (attrescaper (FormValue r "router_ip"))) /\
    Contains (written (serve (handler c w r net).1.1 r' net').1.2)
             (input_html "stok" "路由器认证令牌"
                         (attrescaper (FormValue r "stok"))) /\
    Contains (written (serve (handler c w r net).1.1 r' net').1.2)
             (input_html "ipv6_firewall_enable" "on或off"
                (attrescaper
                   (strings_ToLower (FormValue r "ipv6_firewall_enable")))) /\
    (valid_flag (FormValue r "dmz_enable") ->
     Contains (written (serve (handler c w r net).1.1 r' net').1.2)
              (input_html "dmz_enable" "0或1"
                          (attrescaper (FormValue r "dmz_enable")))) /\
    Contains (written (serve (handler c w r net).1.1 r' net').1.2)
             (input_html "dmz_dest_ip" "例如: 192.168.0.102"
                         (attrescaper (FormValue r "dmz_dest_ip"))) /\
    Contains (written (serve (handler c w r net).1.1 r' net').1.2)
             (input_html "dmz_dest_ip6" "例如: 240e:370:xx"
                         (attrescaper (FormValue r "dmz_dest_ip6"))).
Proof.
  intros HM. rewrite handler_post by assumption. cbn [fst snd].
  intros Hfail. rewrite Hfail.
  assert (Hdmz : valid_flag (FormValue r "dmz_enable") ->
                 DmzEnable (submitted c r) = FormValue r "dmz_enable").
  { intros Hv. apply accepts_dmz_valid in Hv. unfold submitted. simpl.
    now rewrite Hv. }
  split; [reflexivity|]. split; [reflexivity|]. split; [reflexivity|].
  split; [exact Hdmz|]. split; [reflexivity|]. split; [reflexivity|].
  split.
  { eexists. rewrite written_Write. reflexivity. }
  intros r' net' HG.
  assert (HNP : Method r' <> MethodPost) by (rewrite HG; discriminate).
  rewrite serve_handler, handler_get by assumption. cbn [fst snd].
  rewrite sent_body_other by (rewrite HG; discriminate).
  assert (Hpage : written (finishRequest
                             (Execute tmpl new_ResponseWriter (submitted c r)))
                  = render tmpl (submitted c r)).
  { unfold finishRequest.
    destruct (wroteHeader (Execute tmpl new_ResponseWriter (submitted c r)));
      [|unfold WriteHeader;
        destruct (wroteHeader (Execute tmpl new_ResponseWriter
                                       (submitted c r)))];
      rewrite ?Execute_written; try reflexivity;
      simpl; now rewrite Execute_written. }
  rewrite Hpage.
  destruct (render_tmpl_inputs (submitted c r))
    as (H1 & H2 & H3 & H4 & H5 & H6).
  split; [reflexivity|]. split; [reflexivity|].
  split; [exact H1|]. split; [exact H2|]. split; [exact H3|].
  split; [intros Hv; rewrite <- (Hdmz Hv); exact H4|].
  split; [exact H5 | exact H6].
Qed.

(** C1 (code bug).  The claim: the DMZ flag is "0" or "1" after every
    update path, the config load included.  For the config file
    [{"dmz_enable": "5"}] the load succeeds and stores "5" unchecked; a
    form submission with an invalid flag then keeps "5", so the flag stays
    outside {"0","1"} until a valid one is submitted. *)
Theorem readConfig_stores_unchecked_dmz_flag :
  readConfig file_dmz_5 zero_Config
  = (mkConfig "" "" "" "" "" "8080" "5", None) /\
  ~ valid_flag (DmzEnable (readConfig file_dmz_5 zero_Config).1) /\
  forall (w : ResponseWriter) (net : Network),
    DmzEnable (handler (readConfig file_dmz_5 zero_Config).1 w
                       bad_dmz_request net).1.1 = "5".
Proof.
  split; [reflexivity|]. split.
  - intros [H|H]; vm_compute in H; discriminate.
  - intros w net. now rewrite handler_post by reflexivity.
Qed.

End FormServer.

Lemma handler_rejects_invalid_dmz_enable_witness :
  DmzEnable (@handler ascii_Runtime default_config new_ResponseWriter
                      bad_dmz_request router_down).1.1 = "1" /\
  written (@handler ascii_Runtime default_config new_ResponseWriter
                    bad_dmz_request router_down).1.2
  = "DMZ启用状态必须为0或1，已保持原有值: 1<br>操作失败: 请求错误: dial tcp 192.168.0.1:80: connect: no route to host".
Proof.
  split.
  - apply (@handler_rejects_invalid_dmz_enable ascii_Runtime default_config
             new_ResponseWriter bad_dmz_request router_down);
      [reflexivity | vm_compute; discriminate | vm_compute; discriminate].
  - reflexivity.
Defined.

Lemma handler_ipv6_flag_lowercase_witness :
  Method bad_dmz_request = MethodPost /\
  lowercase_of "ON"
    (IPv6FirewallEnable
       (@handler ascii_Runtime default_config new_ResponseWriter
                 bad_dmz_request router_down).1.1).
Proof.
  split; [reflexivity|].
  destruct (@handler_ipv6_flag_lowercase ascii_Runtime default_config
              new_ResponseWriter bad_dmz_request router_down ∅ eq_refl)
    as (H & _).
  apply H.
  change (FormValue bad_dmz_request "ipv6_firewall_enable") with "ON".
  intros i ch Hi.
  destruct i as [|[|i]]; simpl in Hi; try discriminate;
    injection Hi as <-; vm_compute; lia.
Defined.

Lemma handler_failure_keeps_submitted_witness :
  Method bad_dmz_request = MethodPost /\
  (@sendRequest ascii_Runtime
     (@handler ascii_Runtime default_config new_ResponseWriter
               bad_dmz_request router_down).1.1 router_down).1.1 = false /\
  RouterIP (@handler ascii_Runtime default_config new_ResponseWriter
                     bad_dmz_request router_down).1.1 = "192.168.0.1".
Proof.
  split; [reflexivity|]. split; [reflexivity|].
  destruct (@handler_failure_keeps_submitted ascii_Runtime default_config
              new_ResponseWriter bad_dmz_request router_down
              eq_refl eq_refl) as (H & _).
  rewrite H. reflexivity.
Defined.

(** A valid submission to a router that answers 200 is redirected. *)
Example serve_valid_submission :
  let r := post_form [("router_ip", "192.168.0.1"); ("stok", "abc");
                      ("ipv6_firewall_enable", "off"); ("dmz_enable", "1")] in
  status (@serve ascii_Runtime default_config r router_ok).1.2 = 303%Z /\
  sentHeader (@serve ascii_Runtime default_config r router_ok).1.2
    !! "Location" = Some "/success".
Proof. split; reflexivity. Qed.

(** With no config file, the form shows an empty router address and the
    DMZ flag "1". *)
Example serve_get_defaults :
  written (@serve ascii_Runtime default_config get_request router_down).1.2
  = @render ascii_Runtime tmpl default_config /\
  @render ascii_Runtime
     (input_line "router_ip" "例如: 192.168.0.1" RouterIP) default_config
  = input_html "router_ip" "例如: 192.168.0.1" "" /\
  @render ascii_Runtime (input_line "dmz_enable" "0或1" DmzEnable)
     default_config
  = input_html "dmz_enable" "0或1" "1".
Proof. repeat split; reflexivity. Qed.

(** ** Router client *)

Section RouterClient.
Context `{RT : Runtime}.

(** C4.  For every settings value the router client builds the object
    [{firewall: {dmz: {enable, dest_ip, wan_port: "0", dest_ip6},
    ipv6_firewall: {enable}}, method: "set"}] from the settings fields,
    with exactly these members, and posts its encoding with content type
    [application/json] to [http://{router_ip}/stok={stok}/ds]. *)
Theorem sendRequest_command (config : Config) (net : Network) :
  requestBody config = spec_command config /\
  keys (requestBody config) = {["firewall"; "method"]} /\
  keys <$> at_path ["firewall"] (requestBody config)
  = Some {["dmz"; "ipv6_firewall"]} /\
  keys <$> at_path ["firewall"; "dmz"] (requestBody config)
  = Some {["enable"; "dest_ip"; "wan_port"; "dest_ip6"]} /\
  keys <$> at_path ["firewall"; "ipv6_firewall"] (requestBody config)
  = Some {["enable"]} /\
  at_path ["firewall"; "dmz"; "enable"] (requestBody config)
  = Some (VString (DmzEnable config)) /\
  at_path ["firewall"; "dmz"; "dest_ip"] (requestBody config)
  = Some (VString (DmzDestIP config)) /\
  at_path ["firewall"; "dmz"; "wan_port"] (requestBody config)
  = Some (VString "0") /\
  at_path ["firewall"; "dmz"; "dest_ip6"] (requestBody config)
  = Some (VString (DmzDestIP6 config)) /\
  at_path ["firewall"; "ipv6_firewall"; "enable"] (requestBody config)
  = Some (VString (IPv6FirewallEnable config)) /\
  at_path ["method"] (requestBody config) = Some (VString "set") /\
  exists body,
    json_Marshal (spec_command config) = Ok body /\
    (sendRequest config net).2
    = [mkPost ("http://" +:+ RouterIP config +:+ "/stok=" +:+ Stok config
               +:+ "/ds")
              "application/json" body].
Proof.
  assert (Hspec : requestBody config = spec_command config) by reflexivity.
  split; [exact Hspec|].
  split; [unfold requestBody, keys; set_solver|].
  split; [unfold requestBody; cbn; f_equal; set_solver|].
  split; [unfold requestBody; cbn; f_equal; set_solver|].
  split; [unfold requestBody; cbn; f_equal; set_solver|].
  do 6 (split; [reflexivity|]).
  rewrite <- Hspec. apply sendRequest_posts.
Qed.

(** C5.  The router client returns [ok = true] exactly when a response
    with status 200 was received and its body read; a response that was
    read has its whole body returned as the text, whatever its status; a
    serialization, transport or body-read error gives [ok = false] with a
    message that names the error; and exactly one request is attempted.
    (For the value the client builds [json.Marshal] has no error to
    report, so the serialization case never arises and a request always
    goes out.) *)
Theorem sendRequest_outcome (config : Config) (net : Network) :
  exists body,
    json_Marshal (requestBody config) = Ok body /\
    (sendRequest config net).2
    = [mkPost (request_url config) "application/json" body] /\
    length (sendRequest config net).2 = 1 /\
    ((sendRequest config net).1.1 = true <->
     exists data,
       net (mkPost (request_url config) "application/json" body)
       = PostResponse 200 (ReadOk data)) /\
    (forall code data,
        net (mkPost (request_url config) "application/json" body)
        = PostResponse code (ReadOk data) ->
        (sendRequest config net).1 = ((code =? 200)%Z, data)) /\
    (forall err,
        json_Marshal (requestBody config) = Err err ->
        (sendRequest config net).1 = (false, "错误: " +:+ err)) /\
    (forall err,
        net (mkPost (request_url config) "application/json" body)
        = PostFails err ->
        (sendRequest config net).1 = (false, "请求错误: " +:+ err)) /\
    (forall code err,
        net (mkPost (request_url config) "application/json" body)
        = PostResponse code (ReadErr err) ->
        (sendRequest config net).1 = (false, "读取响应错误: " +:+ err)).
Proof.
  destruct (sendRequest_posts config net) as (body & Hb & Hposts).
  exists body. split; [exact Hb|]. split; [exact Hposts|].
  split; [now rewrite Hposts|].
  unfold sendRequest. rewrite Hb.
  destruct (net (mkPost (request_url config) "application/json" body))
    as [e|code [data|e]] eqn:Hnet; cbn [fst snd].
  - split; [split; [discriminate | intros [d Hd]; discriminate]|].
    split; [discriminate|]. split; [discriminate|].
    split; [intros err [= ->]; reflexivity | discriminate].
  - split.
    { split.
      - intros Hok. apply Z.eqb_eq in Hok. subst code. now exists data.
      - intros [d [= -> _]]. reflexivity. }
    split; [intros c d [= -> ->]; reflexivity|].
    split; [discriminate|]. split; discriminate.
  - split; [split; [discriminate | intros [d Hd]; discriminate]|].
    split; [discriminate|]. split; [discriminate|].
    split; [discriminate | intros c err [= _ ->]; reflexivity].
Qed.

End RouterClient.

(** The router client on a few answers of the network. *)
Example sendRequest_200 :
  @sendRequest ascii_Runtime default_config router_ok
  = ((true, "ok"),
     [mkPost "http:///stok=/ds" "application/json"
             (@encode (requestBody default_config))]).
Proof. reflexivity. Qed.

Example sendRequest_500 :
  (@sendRequest ascii_Runtime default_config
     (fun _ => PostResponse 500 (ReadOk "internal error"))).1
  = (false, "internal error").
Proof. reflexivity. Qed.

Example sendRequest_unreachable :
  (@sendRequest ascii_Runtime default_config router_down).1
  = (false,
     "请求错误: dial tcp 192.168.0.1:80: connect: no route to host").
Proof. reflexivity. Qed.

Example sendRequest_body_cut :
  (@sendRequest ascii_Runtime default_config
     (fun _ => PostResponse 200 (ReadErr "unexpected EOF"))).1
  = (false, "读取响应错误: unexpected EOF").
Proof. reflexivity. Qed.

(** ** Process supervisor *)

Lemma cleanupProcesses_clears (GOOS : string) (os : TeardownOutcome)
      (s : Supervisor) :
  supervisor_inv s -> (cleanupProcesses GOOS os s).1 = initial_Supervisor.
Proof.
  unfold supervisor_inv, cleanupProcesses. destruct s as [[p|] g]; simpl.
  - intros Hp. apply Z.ltb_lt in Hp. rewrite Hp.
    now destruct (is_windows GOOS && (0 <? g)%Z);
      [destruct (terminate_group os g)|].
  - now intros ->.
Qed.

Lemma cleanupProcesses_events (GOOS : string) (os : TeardownOutcome)
      (s : Supervisor) :
  supervisor_inv s ->
  exists rest, (cleanupProcesses GOOS os s).2 = teardown_signals s ++ rest.
Proof.
  unfold supervisor_inv, cleanupProcesses, teardown_signals, tracked.
  destruct s as [[p|] g]; simpl.
  - intros Hp. apply Z.ltb_lt in Hp. rewrite Hp.
    destruct (is_windows GOOS && (0 <? g)%Z);
      [destruct (terminate_group os g) as [calls deferred]|];
      simpl; eexists; reflexivity.
  - intros _. now exists [].
Qed.

Lemma safeExecCommand_inv (GOOS : string) (os : TeardownOutcome)
      (start : StartOutcome) (name : string) (args : list string)
      (s : Supervisor) :
  supervisor_inv s ->
  supervisor_inv (safeExecCommand GOOS os start name args s).1.1.
Proof.
  intros Hs. unfold safeExecCommand.
  pose proof (cleanupProcesses_clears GOOS os s Hs) as Hc.
  destruct (cleanupProcesses GOOS os s) as [s1 torn]. simpl in Hc. subst s1.
  destruct start as [err|pid]; [reflexivity|].
  destruct (is_windows GOOS); simpl; unfold supervisor_inv; simpl; lia.
Qed.

Lemma reachable_inv (GOOS : string) (s : Supervisor) :
  reachable GOOS s -> supervisor_inv s.
Proof.
  induction 1 as [|s op Hr IH]; [reflexivity|].
  destruct op as [name args start os|os|]; simpl.
  - pose proof (safeExecCommand_inv GOOS os start name args s IH) as H.
    now destruct (safeExecCommand GOOS os start name args s) as [[s' e] ev].
  - unfold cleanup. now rewrite cleanupProcesses_clears.
  - reflexivity.
Qed.

(** C8.  In every state the supervisor reaches by launches, teardowns and
    watcher wake-ups, at most one handle is tracked.  A launch from such a
    state first tears down what is tracked: the interrupt, the one-second
    wait and the kill for the tracked process come first in its events,
    the spawn comes last, the pair is cleared in between, and afterwards
    the only handle tracked is the new one (none if the start failed). *)
Theorem supervisor_tracks_at_most_one (GOOS : string) (s : Supervisor) :
  reachable GOOS s ->
  length (tracked s) <= 1 /\
  forall (os : TeardownOutcome) (start : StartOutcome) (name : string)
         (args : list string),
    (cleanupProcesses GOOS os s).1 = initial_Supervisor /\
    tracked (cleanupProcesses GOOS os s).1 = [] /\
    (exists rest,
        (safeExecCommand GOOS os start name args s).2
        = teardown_signals s ++ rest ++ [EvStart name args (is_windows GOOS)]) /\
    tracked (safeExecCommand GOOS os start name args s).1.1
    = match start with
      | Started pid => [mkProcess (Zpos pid)]
      | StartFails _ => []
      end /\
    length (tracked (safeExecCommand GOOS os start name args s).1.1) <= 1.
Proof.
  intros Hr. pose proof (reachable_inv GOOS s Hr) as Hs. split.
  { unfold tracked. destruct (childProcess s); simpl; lia. }
  intros os start name args.
  pose proof (cleanupProcesses_clears GOOS os s Hs) as Hc.
  destruct (cleanupProcesses_events GOOS os s Hs) as [rest Hev].
  split; [exact Hc|]. split; [now rewrite Hc|].
  unfold safeExecCommand.
  destruct (cleanupProcesses GOOS os s) as [s1 torn].
  simpl in Hc, Hev. subst s1 torn.
  destruct start as [err|pid]; cbn [fst snd].
  - split; [exists rest; now rewrite <- app_assoc|]. split; [reflexivity|].
    simpl. lia.
  - split; [exists rest; now rewrite <- app_assoc|].
    destruct (is_windows GOOS); split; try reflexivity; simpl; lia.
Qed.

Lemma supervisor_tracks_at_most_one_witness :
  reachable "windows" tracking_4242 /\
  tracked (safeExecCommand "windows" os_quiet (Started 77) "cmd"
             ["/c"; "start"; "/b"; "http://localhost:8080"]
             tracking_4242).1.1
  = [mkProcess 77].
Proof.
  assert (R : reachable "windows" tracking_4242).
  { exact (reachable_step "windows" initial_Supervisor
             (Launch "cmd" ["/c"; "start"; "/b"; "http://localhost:8080"]
                     (Started 4242) os_quiet)
             (reachable_initial "windows")). }
  split; [exact R|].
  destruct (supervisor_tracks_at_most_one "windows" tracking_4242 R)
    as [_ H].
  destruct (H os_quiet (Started 77) "cmd"
              ["/c"; "start"; "/b"; "http://localhost:8080"])
    as (_ & _ & _ & Ht & _).
  exact Ht.
Defined.

(** A second launch on Windows while 4242 is tracked. *)
Example second_launch :
  safeExecCommand "windows" os_quiet (Started 77) "cmd"
    ["/c"; "start"; "/b"; "http://localhost:8080"] tracking_4242
  = (mkSupervisor (Some (mkProcess 77)) 77, None,
     [EvSignal 4242 Interrupt; EvSleep 1000; EvSignal 4242 Kill;
      EvLoadLibrary "kernel32.dll"; EvGetProcAddress "TerminateProcess";
      EvOpenProcess 4242; EvTerminateProcess 4242;
      EvCloseHandle 4242; EvFreeLibrary "kernel32.dll";
      EvStart "cmd" ["/c"; "start"; "/b"; "http://localhost:8080"] true]).
Proof. reflexivity. Qed.

(** On another system nothing is spawned. *)
Example openBrowser_linux :
  openBrowser "linux" os_quiet (Started 77) "http://localhost:8080"
              initial_Supervisor
  = (initial_Supervisor, Some "不支持的操作系统: linux", []).
Proof. reflexivity. Qed.

(** The watcher of an earlier launch clears whatever is tracked when it
    wakes up, also the handle of a later launch. *)
Lemma watcher_clears (s : Supervisor) : tracked (watcher s) = [].
Proof. reflexivity. Qed.

(** ** Shutdown *)

(** [os.Exit] ends [main] before the deferred [cleanup] can run: in every
    state the shutdown prints its line, closes [serverQuit], sleeps 500ms
    and exits with code 0, and that is all: the supervisor state is as it
    was and no signal is sent. *)
Lemma main_shutdown_no_teardown (GOOS : string) (os : TeardownOutcome)
      (s : Supervisor) :
  main_shutdown GOOS os s
  = (s,
     [EvPrint ("程序正在关闭..." +:+ nl); EvClose "serverQuit"; EvSleep 500;
      EvExit 0],
     Exits 0) /\
  (main_shutdown GOOS os s).1.1 = s /\
  (main_shutdown GOOS os s).2 = Exits 0 /\
  forall pid sig, ~ In (EvSignal pid sig) (main_shutdown GOOS os s).1.2.
Proof.
  repeat split. intros pid sig. simpl.
  intros [H|[H|[H|[H|[]]]]]; discriminate.
Qed.

(** C9 (code bug).  The claim: after the operator's line the shutdown
    closes the signal, waits 500ms, runs the supervisor teardown and exits
    with code 0, so no tracked child is left.  With the child 4242 tracked
    when the line arrives, [main] prints, closes [serverQuit], sleeps
    500ms and calls [os.Exit(0)]; the [cleanup] registered with [defer]
    never runs, no signal is sent and 4242 is still tracked at exit.  Had
    [cleanup] run, it would have signalled 4242 and cleared the handle. *)
Theorem main_shutdown_leaves_child_tracked :
  main_shutdown "windows" os_quiet tracking_4242
  = (tracking_4242,
     [EvPrint ("程序正在关闭..." +:+ nl); EvClose "serverQuit"; EvSleep 500;
      EvExit 0],
     Exits 0) /\
  tracked (main_shutdown "windows" os_quiet tracking_4242).1.1
  = [mkProcess 4242] /\
  (cleanup "windows" os_quiet tracking_4242).1 = initial_Supervisor /\
  In (EvSignal 4242 Kill) (cleanup "windows" os_quiet tracking_4242).2.
Proof.
  repeat split. vm_compute. tauto.
Qed.

(** * Further properties *)

(** ** Config store: what a config file does to the settings *)

Lemma get_set_field (f : Field) (v : string) (c : Config) :
  get_field f (set_field f v c) = v.
Proof. destruct f; reflexivity. Qed.

Lemma get_set_field_other (f g : Field) (v : string) (c : Config) :
  g <> f -> get_field f (set_field g v c) = get_field f c.
Proof. destruct f, g; intros Hne; try reflexivity; congruence. Qed.

Lemma decode_members_app (a b : list (string * jvalue)) (c : Config)
      (saved : option error) :
  decode_members (a ++ b) c saved
  = decode_members b (decode_members a c saved).1
                   (decode_members a c saved).2.
Proof.
  revert c saved. induction a as [|[k v] a IH]; intros c saved.
  - reflexivity.
  - simpl. destruct (field_of_key k) as [f|]; [|apply IH].
    destruct (store_member f v c) as [c' e]. apply IH.
Qed.

(** A setting that no member of the file names comes out as [readConfig]
    set it before decoding: the default for the server port and the DMZ
    flag, the previous value for the other five.  This holds whether or
    not the load reports a type error. *)
Theorem readConfig_unnamed_field (f : Field) (ms : list (string * jvalue))
        (c : Config) :
  Forall (fun kv => field_of_key kv.1 <> Some f) ms ->
  get_field f (readConfig (Contents (WellFormed (JObj ms))) c).1
  = get_field f (with_defaults c).
Proof.
  intros Hms. unfold readConfig, json_Unmarshal.
  apply (decode_members_frame f (get_field f)); [|exact Hms].
  intros g v c0 Hg. now apply get_set_field_other.
Qed.

Lemma readConfig_unnamed_field_witness :
  get_field FServerPort
    (readConfig
       (Contents (WellFormed (JObj [("router_ip", JStr "192.168.0.1");
                                    ("stok", JNumber "5")])))
       zero_Config).1
  = "8080".
Proof.
  apply (readConfig_unnamed_field FServerPort
           [("router_ip", JStr "192.168.0.1"); ("stok", JNumber "5")]
           zero_Config).
  constructor; [vm_compute; discriminate|].
  constructor; [vm_compute; discriminate|].
  constructor.
Defined.

(** When the file names a setting more than once, or after other members,
    the last member decides: a string in the last position is what the
    setting holds after the load. *)
Theorem readConfig_last_member_wins (f : Field) (k v : string)
        (ms : list (string * jvalue)) (c : Config) :
  field_of_key k = Some f ->
  get_field f
    (readConfig (Contents (WellFormed (JObj (ms ++ [(k, JStr v)])))) c).1
  = v.
Proof.
  intros Hk. unfold readConfig, json_Unmarshal.
  rewrite decode_members_app. simpl. rewrite Hk. simpl.
  apply get_set_field.
Qed.

Lemma readConfig_last_member_wins_witness :
  get_field FStok
    (readConfig
       (Contents (WellFormed (JObj ([("stok", JStr "old"); ("STOK", JNull)]
                                    ++ [("Stok", JStr "new")]))))
       zero_Config).1
  = "new".
Proof.
  apply (readConfig_last_member_wins FStok "Stok" "new"
           [("stok", JStr "old"); ("STOK", JNull)] zero_Config).
  reflexivity.
Defined.

Lemma decode_members_no_error (ms : list (string * jvalue)) (c : Config)
      (saved : option error) :
  (decode_members ms c saved).2 = None
  <-> saved = None /\ forallb storable ms = true.
Proof.
  revert c saved. induction ms as [|[k v] ms IH]; intros c saved.
  - simpl. tauto.
  - simpl. unfold storable at 1. simpl.
    destruct (field_of_key k) as [f|].
    + destruct v; simpl; rewrite IH; destruct saved; simpl;
        intuition congruence.
    + apply IH.
Qed.

(** A config file that is a JSON object loads without an error exactly
    when every member that names a setting holds a string or [null]. *)
Theorem readConfig_object_error (ms : list (string * jvalue)) (c : Config) :
  (readConfig (Contents (WellFormed (JObj ms))) c).2 = None
  <-> forallb storable ms = true.
Proof.
  unfold readConfig, json_Unmarshal. rewrite decode_members_no_error.
  tauto.
Qed.

(** A file that spells out all seven settings as strings determines the
    settings completely: whatever [config] held before, the load returns
    the settings of the file and no error. *)
Theorem readConfig_config_object (settings c : Config) :
  readConfig (Contents (WellFormed (config_object settings))) c
  = (settings, None).
Proof. destruct settings, c. reflexivity. Qed.

(** ** Router client: what the command carries *)

Lemma requestBody_fields (c : Config) :
  at_path ["firewall"; "dmz"; "enable"] (requestBody c)
  = Some (VString (DmzEnable c)) /\
  at_path ["firewall"; "dmz"; "dest_ip"] (requestBody c)
  = Some (VString (DmzDestIP c)) /\
  at_path ["firewall"; "dmz"; "dest_ip6"] (requestBody c)
  = Some (VString (DmzDestIP6 c)) /\
  at_path ["firewall"; "ipv6_firewall"; "enable"] (requestBody c)
  = Some (VString (IPv6FirewallEnable c)).
Proof. repeat split. Qed.

(** Two settings give the same command object exactly when they agree on
    the DMZ flag, the two DMZ targets and the IPv6 flag: the command
    carries these four and nothing of the router address, the token or the
    server port. *)
Theorem requestBody_determines (c1 c2 : Config) :
  requestBody c1 = requestBody c2
  <-> DmzEnable c1 = DmzEnable c2 /\ DmzDestIP c1 = DmzDestIP c2 /\
      DmzDestIP6 c1 = DmzDestIP6 c2 /\
      IPv6FirewallEnable c1 = IPv6FirewallEnable c2.
Proof.
  split.
  - intros H.
    destruct (requestBody_fields c1) as (A1 & B1 & C1 & D1).
    destruct (requestBody_fields c2) as (A2 & B2 & C2 & D2).
    rewrite H in A1, B1, C1, D1. repeat split; congruence.
  - intros (A & B & C & D). unfold requestBody. now rewrite A, B, C, D.
Qed.

(** ** Form server: responses, sequences of requests, routes *)

Lemma prefix_HasPrefix (p s : string) :
  String.prefix p s = true <-> HasPrefix s p.
Proof.
  revert s. induction p as [|a p IH]; intros s.
  - split; [intros _; now exists s | intros _; now destruct s].
  - destruct s as [|b s]; simpl.
    + split; [discriminate | intros [post H]; discriminate].
    + destruct (ascii_dec a b) as [->|Hne].
      * rewrite IH. split; intros [post H]; exists post.
        -- now rewrite append_cons, <- H.
        -- rewrite append_cons in H. now injection H.
      * split; [discriminate|].
        intros [post H]. rewrite append_cons in H. congruence.
Qed.

Lemma Write_after_header (data : string) (w : ResponseWriter) :
  wroteHeader w = true ->
  wroteHeader (Write data w) = true /\
  status (Write data w) = status w /\
  sentHeader (Write data w) = sentHeader w.
Proof. intros E. unfold Write. now rewrite E. Qed.

Section FormServerMore.
Context `{RT : Runtime}.

Lemma Execute_after_header (t : list Node) (w : ResponseWriter) (c : Config) :
  wroteHeader w = true ->
  wroteHeader (Execute t w c) = true /\
  status (Execute t w c) = status w /\
  sentHeader (Execute t w c) = sentHeader w.
Proof.
  unfold Execute. revert w. induction t as [|n t IH]; intros w E.
  - now repeat split.
  - cbn [fold_left].
    assert (Hn : wroteHeader (exec_node c w n) = true /\
                 status (exec_node c w n) = status w /\
                 sentHeader (exec_node c w n) = sentHeader w)
      by (destruct n; now apply Write_after_header).
    destruct Hn as (E1 & S1 & H1).
    destruct (IH _ E1) as (E2 & S2 & H2). now rewrite S2, H2.
Qed.

(** A template that is not empty, run on a fresh response, sends the
    header with status 200 and none of the handler's headers. *)
Lemma Execute_cons_fresh (n : Node) (t : list Node) (c : Config) :
  wroteHeader (Execute (n :: t) new_ResponseWriter c) = true /\
  status (Execute (n :: t) new_ResponseWriter c) = 200%Z /\
  sentHeader (Execute (n :: t) new_ResponseWriter c) = ∅.
Proof.
  change (Execute (n :: t) new_ResponseWriter c)
    with (Execute t (exec_node c new_ResponseWriter n) c).
  assert (Hn : wroteHeader (exec_node c new_ResponseWriter n) = true /\
               status (exec_node c new_ResponseWriter n) = 200%Z /\
               sentHeader (exec_node c new_ResponseWriter n) = ∅)
    by (destruct n; repeat split).
  destruct Hn as (E1 & S1 & H1).
  destruct (Execute_after_header t _ c E1) as (E2 & S2 & H2).
  now rewrite E2, S2, H2.
Qed.

Lemma Execute_tmpl_fresh (c : Config) :
  wroteHeader (Execute tmpl new_ResponseWriter c) = true /\
  status (Execute tmpl new_ResponseWriter c) = 200%Z /\
  sentHeader (Execute tmpl new_ResponseWriter c) = ∅.
Proof. apply Execute_cons_fresh. Qed.

(** A request with any method but POST is read-only: the settings stay,
    the router is not called, and the answer has status 200 and no
    Location header.  Its body is the form page for the current settings,
    except for HEAD, which gets the header alone.  Two such requests get
    the same answer when both or neither are HEAD, whatever else they
    carry and whatever the network does. *)
Theorem serve_non_post_read_only (c : Config) (r r' : Request)
        (net net' : Network) :
  Method r <> MethodPost ->
  Method r' <> MethodPost ->
  (serve c r net).1.1 = c /\
  (serve c r net).2 = [] /\
  status (serve c r net).1.2 = 200%Z /\
  sentHeader (serve c r net).1.2 !! "Location" = None /\
  written (serve c r net).1.2
  = (if String.eqb (Method r) MethodHead then "" else render tmpl c) /\
  (String.eqb (Method r') MethodHead = String.eqb (Method r) MethodHead ->
   serve c r' net' = serve c r net).
Proof.
  intros HM HM'. rewrite !serve_handler, !handler_get by assumption.
  destruct (Execute_tmpl_fresh c) as (E & S & H).
  cbn [fst snd]. unfold finishRequest. rewrite E.
  destruct (sent_body_header r (Execute tmpl new_ResponseWriter c))
    as [-> ->].
  rewrite S, H. do 4 (split; [reflexivity|]). split.
  - unfold sent_body. destruct (String.eqb (Method r) MethodHead);
      [reflexivity|]. now rewrite Execute_written.
  - intros Heq. unfold sent_body. now rewrite Heq.
Qed.

(** The status of the answer to a POST: 303 with Location [/success] when
    the router client succeeded and the DMZ flag was accepted, and 200
    without a Location header in every other case. *)
Theorem serve_post_status (c : Config) (r : Request) (net : Network) :
  Method r = MethodPost ->
  status (serve c r net).1.2
  = (if (sendRequest (serve c r net).1.1 net).1.1
        && accepts_dmz (FormValue r "dmz_enable")
     then 303%Z else 200%Z) /\
  sentHeader (serve c r net).1.2 !! "Location"
  = (if (sendRequest (serve c r net).1.1 net).1.1
        && accepts_dmz (FormValue r "dmz_enable")
     then Some "/success" else None).
Proof.
  intros HM. rewrite serve_post by assumption.
  rewrite handler_post by assumption.
  cbn [fst snd].
  destruct ((sendRequest (submitted c r) net).1.1);
    destruct (accepts_dmz (FormValue r "dmz_enable")); split; reflexivity.
Qed.

(** The settings a POST leaves depend on the settings before only through
    the server port and the DMZ flag, and submitting the same form again
    changes nothing more. *)
Theorem handler_post_overwrites (c : Config) (w : ResponseWriter)
        (r : Request) (net : Network) :
  Method r = MethodPost ->
  (forall (c2 : Config) (w2 : ResponseWriter) (net2 : Network),
      ServerPort c2 = ServerPort c -> DmzEnable c2 = DmzEnable c ->
      (handler c2 w2 r net2).1.1 = (handler c w r net).1.1) /\
  (forall (w2 : ResponseWriter) (net2 : Network),
      (handler (handler c w r net).1.1 w2 r net2).1.1
      = (handler c w r net).1.1).
Proof.
  intros HM. split.
  - intros c2 w2 net2 HP HD. rewrite !handler_post by assumption.
    cbn [fst snd]. unfold submitted. now rewrite HP, HD.
  - intros w2 net2. rewrite !handler_post by assumption. cbn [fst snd].
    unfold submitted. simpl.
    now destruct (accepts_dmz (FormValue r "dmz_enable")).
Qed.

Lemma post_writer_warning (c : Config) (w : ResponseWriter) (r : Request)
      (net : Network) :
  Method r = MethodPost ->
  accepts_dmz (FormValue r "dmz_enable") = false ->
  Contains (written (handler c w r net).1.2) (dmz_warning (DmzEnable c)).
Proof.
  intros HM Hrej. rewrite handler_post by assumption. cbn [fst snd].
  rewrite Hrej. destruct ((sendRequest (submitted c r) net).1.1).
  - destruct (http_Redirect_too_late (Write (dmz_warning (DmzEnable c)) w)
                "/success" StatusSeeOther (wroteHeader_Write _ _))
      as (_ & _ & ->).
    rewrite written_Write. apply Contains_append_r, Contains_refl.
  - rewrite !written_Write.
    apply Contains_append_l, Contains_append_r, Contains_refl.
Qed.

(** A field the submitted form does not have is stored as the empty
    string, so a POST that leaves out the router address or the token
    wipes it; a missing [dmz_enable] counts as an invalid flag: the flag is
    kept and the warning written. *)
Theorem handler_missing_fields (c : Config) (w : ResponseWriter)
        (r : Request) (net : Network) :
  Method r = MethodPost ->
  (Form r !! "router_ip" = None -> RouterIP (handler c w r net).1.1 = "") /\
  (Form r !! "stok" = None -> Stok (handler c w r net).1.1 = "") /\
  (Form r !! "ipv6_firewall_enable" = None ->
   IPv6FirewallEnable (handler c w r net).1.1 = "") /\
  (Form r !! "dmz_dest_ip" = None ->
   DmzDestIP (handler c w r net).1.1 = "") /\
  (Form r !! "dmz_dest_ip6" = None ->
   DmzDestIP6 (handler c w r net).1.1 = "") /\
  (Form r !! "dmz_enable" = None ->
   DmzEnable (handler c w r net).1.1 = DmzEnable c /\
   Contains (written (handler c w r net).1.2)
            (dmz_warning (DmzEnable c))).
Proof.
  intros HM.
  assert (Hv : forall k, Form r !! k = None -> FormValue r k = "")
    by (intros k Hk; unfold FormValue; now rewrite Hk).
  assert (Hs : (handler c w r net).1.1 = submitted c r)
    by now rewrite handler_post.
  rewrite !Hs. unfold submitted. cbn [RouterIP Stok IPv6FirewallEnable
                                      DmzDestIP DmzDestIP6 DmzEnable].
  do 5 (split; [intros Hk; now rewrite (Hv _ Hk)|]).
  intros Hk. rewrite (Hv _ Hk). split; [reflexivity|].
  apply post_writer_warning; [assumption|]. now rewrite (Hv _ Hk).
Qed.

Lemma serve_config (c : Config) (r : Request) (net : Network) :
  (serve c r net).1.1 = (handler c new_ResponseWriter r net).1.1 /\
  (serve c r net).2 = (handler c new_ResponseWriter r net).2.
Proof.
  now rewrite serve_handler.
Qed.

Lemma serve_posts_length (c : Config) (r : Request) (net : Network) :
  length (serve c r net).2 = if is_post r then 1 else 0.
Proof.
  destruct (serve_config c r net) as [_ ->]. unfold is_post.
  destruct (String.eqb_spec (Method r) MethodPost) as [HM|HM].
  - rewrite handler_post by assumption. cbn [snd].
    destruct (sendRequest_posts (submitted c r) net) as (body & _ & ->).
    reflexivity.
  - now rewrite handler_get.
Qed.

Lemma serve_ServerPort (c : Config) (r : Request) (net : Network) :
  ServerPort (serve c r net).1.1 = ServerPort c.
Proof.
  destruct (serve_config c r net) as [-> _].
  destruct (String.eqb_spec (Method r) MethodPost) as [HM|HM].
  - now rewrite handler_post.
  - now rewrite handler_get.
Qed.

Lemma serve_all_cons (c : Config) (r : Request) (net : Network)
      (rest : list (Request * Network)) :
  (serve_all c ((r, net) :: rest)).1.1
  = (serve_all (serve c r net).1.1 rest).1.1 /\
  (serve_all c ((r, net) :: rest)).2
  = (serve c r net).2 ++ (serve_all (serve c r net).1.1 rest).2.
Proof.
  cbn [serve_all]. destruct (serve c r net) as [[c1 w] posts].
  cbn [fst snd]. now destruct (serve_all c1 rest) as [[c2 ws] posts'].
Qed.

(** Over any sequence of requests the router is called once for each
    POST and never otherwise. *)
Theorem serve_all_posts_count (c : Config)
        (requests : list (Request * Network)) :
  length (serve_all c requests).2
  = length (List.filter (fun rn => is_post rn.1) requests).
Proof.
  revert c. induction requests as [|[r net] rest IH]; intros c.
  - reflexivity.
  - destruct (serve_all_cons c r net rest) as [_ ->].
    rewrite length_app, serve_posts_length, IH. cbn [List.filter fst].
    now destruct (is_post r).
Qed.

Lemma serve_all_ServerPort (c : Config)
      (requests : list (Request * Network)) :
  ServerPort (serve_all c requests).1.1 = ServerPort c.
Proof.
  revert c. induction requests as [|[r net] rest IH]; intros c.
  - reflexivity.
  - destruct (serve_all_cons c r net rest) as [-> _].
    now rewrite IH, serve_ServerPort.
Qed.

(** No sequence of requests changes the server port: the port the
    listener was bound to stays the one in the settings, and with it the
    address the browser was sent to. *)
Theorem serve_all_keeps_ServerPort (c : Config)
        (requests : list (Request * Network)) :
  ServerPort (serve_all c requests).1.1 = ServerPort c /\
  serverAddr (serve_all c requests).1.1 = serverAddr c /\
  serverURL (serve_all c requests).1.1 = serverURL c.
Proof.
  unfold serverAddr, serverURL. now rewrite serve_all_ServerPort.
Qed.

(** A DMZ flag that is "0" or "1" stays so over any sequence of requests. *)
Theorem serve_all_keeps_valid_flag (c : Config)
        (requests : list (Request * Network)) :
  valid_flag (DmzEnable c) ->
  valid_flag (DmzEnable (serve_all c requests).1.1).
Proof.
  revert c. induction requests as [|[r net] rest IH]; intros c Hv.
  - exact Hv.
  - destruct (serve_all_cons c r net rest) as [-> _]. apply IH.
    destruct (serve_config c r net) as [-> _].
    now apply handler_keeps_valid_flag.
Qed.

Lemma serve_all_app (c : Config) (a b : list (Request * Network)) :
  (serve_all c (a ++ b)).1.1 = (serve_all (serve_all c a).1.1 b).1.1.
Proof.
  revert c. induction a as [|[r net] a IH]; intros c.
  - reflexivity.
  - cbn [app]. destruct (serve_all_cons c r net (a ++ b)) as [-> _].
    destruct (serve_all_cons c r net a) as [-> _]. apply IH.
Qed.

(** After a sequence that ends in a POST with a valid DMZ flag the
    settings are the submitted ones, with the server port of the start:
    nothing of the earlier requests is left. *)
Theorem serve_all_last_submission (c : Config)
        (requests : list (Request * Network)) (r : Request) (net : Network) :
  Method r = MethodPost ->
  valid_flag (FormValue r "dmz_enable") ->
  (serve_all c (requests ++ [(r, net)])).1.1
  = mkConfig (FormValue r "router_ip") (FormValue r "stok")
             (strings_ToLower (FormValue r "ipv6_firewall_enable"))
             (FormValue r "dmz_dest_ip") (FormValue r "dmz_dest_ip6")
             (ServerPort c) (FormValue r "dmz_enable").
Proof.
  intros HM Hv. rewrite serve_all_app.
  destruct (serve_all_cons (serve_all c requests).1.1 r net []) as [-> _].
  cbn [serve_all fst]. destruct (serve_config (serve_all c requests).1.1 r net)
    as [-> _].
  rewrite handler_post by assumption. cbn [fst]. unfold submitted.
  apply accepts_dmz_valid in Hv. rewrite Hv.
  now rewrite serve_all_ServerPort.
Qed.

Lemma ends_in_slash_append (p : string) : ends_in_slash (p +:+ "/") = true.
Proof.
  induction p as [|a p IH]; [reflexivity|].
  destruct p as [|b p]; [reflexivity|]. exact IH.
Qed.

Lemma append_slash_root (p : string) : p +:+ "/" = "/" -> p = "".
Proof.
  destruct p as [|a p]; [reflexivity|]. rewrite append_cons.
  intros H. injection H as _ H. destruct p; discriminate.
Qed.

(** With the two routes of the program the mux never redirects from a
    path to the subtree of that name. *)
Lemma shouldRedirect_registered (path : string) :
  shouldRedirect registered path = false.
Proof.
  unfold shouldRedirect, registered_exactly, registered.
  cbn [existsb fst].
  destruct (String.eqb "/" path || (String.eqb "/success" path || false));
    [reflexivity|].
  destruct (String.eqb_spec path "") as [|Hne]; [reflexivity|].
  destruct (String.eqb_spec "/" (path +:+ "/")) as [E|_].
  { symmetry in E. apply append_slash_root in E. contradiction. }
  destruct (String.eqb_spec "/success" (path +:+ "/")) as [E|_];
    [|reflexivity].
  pose proof (ends_in_slash_append path) as H. rewrite <- E in H.
  discriminate.
Qed.

Lemma cleanPath_rooted (p : string) :
  exists rest, cleanPath p = String "/" rest.
Proof.
  unfold cleanPath, path_Clean. destruct p as [|a p]; [now eexists|].
  match goal with
  | |- context [if ?b then _ else _] => destruct b
  end; eexists; reflexivity.
Qed.

(** What the mux does with a request whose method is not CONNECT and
    whose target is not [*].  A path that is not in its cleaned form
    (an empty, [.] or [..] element, no leading slash) is answered with a
    redirect to the cleaned path and no handler runs.  Every other path
    is served by a handler: [/success] by the success page, which leaves
    the settings alone and calls nobody whatever the method, and any
    other path by the form handler, so that a POST to it updates the
    settings.  The mux never answers 404. *)
Theorem serve_path_routes (c : Config) (path : string) (r : Request)
        (net : Network) :
  Method r <> "CONNECT" ->
  path <> "*" ->
  serve_path c path r net
  = if String.eqb (cleanPath path) path then
      ByHandler
        (if String.eqb path "/success"
         then (c,
               sent_body r
                 (mkRW ∅ true 200 ∅
                       ("操作成功！可关闭浏览器返回程序，按Enter退出。" +:+ nl)),
               [])
         else serve c r net)
    else MuxRedirect (cleanPath path).
Proof.
  intros HM HP. unfold serve_path.
  apply String.eqb_neq in HM, HP. rewrite HM, HP. cbv zeta.
  rewrite shouldRedirect_registered.
  destruct (String.eqb_spec (cleanPath path) path) as [Hc|Hc];
    [|reflexivity].
  cbn [negb]. destruct (cleanPath_rooted path) as [rest Hr].
  rewrite Hc in Hr. subst path. unfold run_route.
  destruct (String.eqb_spec (String "/" rest) "/success") as [E|E].
  - rewrite E. reflexivity.
  - assert (Hm : mux_lookup registered (String "/" rest)
                 = Some ("/", FormHandler)).
    { apply String.eqb_neq in E. rewrite String.eqb_sym in E.
      assert (P : String.prefix "/" (String "/" rest) = true)
        by (apply prefix_HasPrefix; now exists rest).
      cbv [registered mux_lookup pattern_matches]. rewrite E, P.
      reflexivity. }
    now rewrite Hm.
Qed.

End FormServerMore.

Lemma serve_non_post_read_only_witness :
  Method get_request <> MethodPost /\
  (@serve ascii_Runtime default_config get_request router_down).1.1
  = default_config.
Proof.
  assert (H : Method get_request <> MethodPost) by discriminate.
  split; [exact H|].
  destruct (@serve_non_post_read_only ascii_Runtime default_config
              get_request get_request router_down router_ok H H)
    as (Hc & _).
  exact Hc.
Defined.

Lemma serve_post_status_witness :
  Method bad_dmz_request = MethodPost /\
  status (@serve ascii_Runtime default_config bad_dmz_request router_ok).1.2
  = 200%Z.
Proof.
  split; [reflexivity|].
  destruct (@serve_post_status ascii_Runtime default_config bad_dmz_request
              router_ok eq_refl) as [H _].
  rewrite H. reflexivity.
Defined.

Lemma handler_post_overwrites_witness :
  Method bad_dmz_request = MethodPost /\
  (@handler ascii_Runtime
     (@handler ascii_Runtime default_config new_ResponseWriter
               bad_dmz_request router_down).1.1
     new_ResponseWriter bad_dmz_request router_ok).1.1
  = (@handler ascii_Runtime default_config new_ResponseWriter
              bad_dmz_request router_down).1.1.
Proof.
  split; [reflexivity|].
  destruct (@handler_post_overwrites ascii_Runtime default_config
              new_ResponseWriter bad_dmz_request router_down eq_refl)
    as [_ H].
  apply H.
Defined.

Lemma handler_missing_fields_witness :
  Method (post_form [("dmz_enable", "0")]) = MethodPost /\
  RouterIP (@handler ascii_Runtime default_config new_ResponseWriter
                     (post_form [("dmz_enable", "0")]) router_ok).1.1 = "".
Proof.
  split; [reflexivity|].
  destruct (@handler_missing_fields ascii_Runtime default_config
              new_ResponseWriter (post_form [("dmz_enable", "0")])
              router_ok eq_refl) as [H _].
  apply H. reflexivity.
Defined.

Lemma serve_all_keeps_valid_flag_witness :
  valid_flag (DmzEnable default_config) /\
  valid_flag
    (DmzEnable
       (@serve_all ascii_Runtime default_config
          [(bad_dmz_request, router_ok); (get_request, router_down);
           (post_form [("dmz_enable", "0")], router_down)]).1.1).
Proof.
  assert (H : valid_flag (DmzEnable default_config)) by (right; reflexivity).
  split; [exact H|].
  apply (@serve_all_keeps_valid_flag ascii_Runtime). exact H.
Defined.

Lemma serve_all_last_submission_witness :
  valid_flag (FormValue (post_form [("dmz_enable", "0")]) "dmz_enable") /\
  (@serve_all ascii_Runtime default_config
     ([(bad_dmz_request, router_ok)]
      ++ [(post_form [("dmz_enable", "0")], router_down)])).1.1
  = mkConfig "" "" "" "" "" "8080" "0".
Proof.
  assert (H : valid_flag
                (FormValue (post_form [("dmz_enable", "0")]) "dmz_enable"))
    by (left; reflexivity).
  split; [exact H|].
  rewrite (@serve_all_last_submission ascii_Runtime default_config
             [(bad_dmz_request, router_ok)]
             (post_form [("dmz_enable", "0")]) router_down eq_refl H).
  reflexivity.
Defined.

Lemma serve_path_routes_witness :
  Method bad_dmz_request <> "CONNECT" /\
  @serve_path ascii_Runtime default_config "/favicon.ico" bad_dmz_request
              router_ok
  = ByHandler
      (@serve ascii_Runtime default_config bad_dmz_request router_ok).
Proof.
  assert (HM : Method bad_dmz_request <> "CONNECT") by discriminate.
  assert (HP : "/favicon.ico" <> "*") by discriminate.
  split; [exact HM|].
  rewrite (@serve_path_routes ascii_Runtime default_config "/favicon.ico"
             bad_dmz_request router_ok HM HP).
  reflexivity.
Defined.

(** The mux on a few paths: it redirects what is not clean and hands the
    rest to a handler. *)
Example serve_path_unclean :
  @serve_path ascii_Runtime default_config "/a/../success" bad_dmz_request
              router_ok
  = MuxRedirect "/success" /\
  @serve_path ascii_Runtime default_config "//x" bad_dmz_request router_ok
  = MuxRedirect "/x" /\
  @serve_path ascii_Runtime default_config "/./" get_request router_ok
  = MuxRedirect "/" /\
  @serve_path ascii_Runtime default_config "/a/b/" get_request router_ok
  = ByHandler (@serve ascii_Runtime default_config get_request router_ok) /\
  @serve_path ascii_Runtime default_config "/success/" get_request router_ok
  = ByHandler (@serve ascii_Runtime default_config get_request router_ok).
Proof. repeat split; reflexivity. Qed.

(** A HEAD request gets the header and no body, on either route. *)
Example serve_head :
  written (@serve ascii_Runtime default_config (mkRequest "HEAD" ∅)
                  router_ok).1.2 = "" /\
  status (@serve ascii_Runtime default_config (mkRequest "HEAD" ∅)
                 router_ok).1.2 = 200%Z /\
  @serve_path ascii_Runtime default_config "/success" (mkRequest "HEAD" ∅)
              router_ok
  = ByHandler (default_config, mkRW ∅ true 200 ∅ "", []).
Proof. repeat split; reflexivity. Qed.

(** ** Process supervisor: teardown, process group, watcher *)

(** A second teardown right after a teardown does nothing: it sends no
    signal, makes no call and leaves the state as it is, in every state
    and whatever the operating system answers. *)
Theorem cleanup_twice (GOOS : string) (os os' : TeardownOutcome)
        (s : Supervisor) :
  cleanup GOOS os' (cleanup GOOS os s).1 = ((cleanup GOOS os s).1, []).
Proof.
  unfold cleanup, cleanupProcesses. destruct s as [[[pid]|] g]; simpl.
  - destruct (0 <? pid)%Z eqn:Hp; simpl.
    + now destruct (is_windows GOOS && (0 <? g)%Z);
        [destruct (terminate_group os g)|].
    + now rewrite Hp.
  - reflexivity.
Qed.

(** In every reachable state the recorded process group is the id of the
    tracked process on Windows, and 0 on any other system or when nothing
    is tracked. *)
Theorem reachable_processGroup (GOOS : string) (s : Supervisor) :
  reachable GOOS s ->
  processGroup s
  = match childProcess s with
    | Some p => if is_windows GOOS then Pid p else 0%Z
    | None => 0%Z
    end.
Proof.
  induction 1 as [|s op Hr IH]; [reflexivity|].
  pose proof (reachable_inv GOOS s Hr) as Hs.
  destruct op as [name args start os|os|]; simpl.
  - unfold safeExecCommand.
    pose proof (cleanupProcesses_clears GOOS os s Hs) as Hc.
    destruct (cleanupProcesses GOOS os s) as [s1 torn]. simpl in Hc.
    subst s1. destruct start as [err|pid]; [reflexivity|].
    now destruct (is_windows GOOS).
  - unfold cleanup. now rewrite cleanupProcesses_clears.
  - reflexivity.
Qed.

Lemma reachable_processGroup_witness :
  reachable "windows" tracking_4242 /\ processGroup tracking_4242 = 4242%Z.
Proof.
  assert (R : reachable "windows" tracking_4242).
  { exact (reachable_step "windows" initial_Supervisor
             (Launch "cmd" ["/c"; "start"; "/b"; "http://localhost:8080"]
                     (Started 4242) os_quiet)
             (reachable_initial "windows")). }
  split; [exact R|].
  rewrite (reachable_processGroup "windows" tracking_4242 R). reflexivity.
Defined.

(** On a system other than Windows neither a teardown nor a launch makes
    any of the Windows calls, whatever state they start from. *)
Theorem no_windows_calls_elsewhere (GOOS : string) (os : TeardownOutcome)
        (start : StartOutcome) (name : string) (args : list string)
        (s : Supervisor) :
  is_windows GOOS = false ->
  Forall (fun e => is_windows_call e = false) (cleanupProcesses GOOS os s).2 /\
  Forall (fun e => is_windows_call e = false)
         (safeExecCommand GOOS os start name args s).2.
Proof.
  intros HW.
  assert (Hc : Forall (fun e => is_windows_call e = false)
                      (cleanupProcesses GOOS os s).2).
  { unfold cleanupProcesses. destruct s as [[[pid]|] g]; simpl;
      [|constructor].
    destruct (0 <? pid)%Z; [|constructor]. rewrite HW. simpl.
    destruct (kill_error os); repeat constructor. }
  split; [exact Hc|].
  unfold safeExecCommand.
  destruct (cleanupProcesses GOOS os s) as [s1 torn]. simpl in Hc.
  destruct start as [err|pid]; cbn [snd];
    (apply Forall_app; split; [exact Hc | repeat constructor]).
Qed.

Lemma no_windows_calls_elsewhere_witness :
  is_windows "linux" = false /\
  Forall (fun e => is_windows_call e = false)
         (cleanupProcesses "linux" os_quiet
            (mkSupervisor (Some (mkProcess 4242)) 0)).2.
Proof.
  split; [reflexivity|].
  apply (no_windows_calls_elsewhere "linux" os_quiet (Started 77) "cmd" []
           (mkSupervisor (Some (mkProcess 4242)) 0) eq_refl).
Defined.


(** The watcher clears the pair without looking at what is tracked.  A
    process that has just been started is killed by the next teardown; if
    the watcher of an earlier launch wakes up in between, the teardown
    sends it nothing and a later launch starts beside it. *)
Theorem watcher_forgets_child (GOOS : string) (os os' : TeardownOutcome)
        (pid : positive) (name : string) (args : list string)
        (s : Supervisor) :
  In (EvSignal (Zpos pid) Kill)
     (cleanup GOOS os'
        (safeExecCommand GOOS os (Started pid) name args s).1.1).2 /\
  cleanup GOOS os'
    (watcher (safeExecCommand GOOS os (Started pid) name args s).1.1)
  = (initial_Supervisor, []) /\
  (forall start' name' args',
      (safeExecCommand GOOS os' start' name' args'
         (watcher (safeExecCommand GOOS os (Started pid) name args s).1.1)).2
      = [EvStart name' args' (is_windows GOOS)]).
Proof.
  split; [|split].
  - unfold safeExecCommand.
    destruct (cleanupProcesses GOOS os s) as [s1 torn]. cbn [fst snd].
    unfold cleanup, cleanupProcesses.
    destruct (is_windows GOOS); cbn [childProcess Pid processGroup];
      change (0 <? Z.pos pid)%Z with true; cbn iota;
      match goal with
      | |- context [if ?b then terminate_group _ _ else _] =>
          destruct b; [destruct (terminate_group os' _)|]
      end; simpl; auto.
  - reflexivity.
  - intros start' name' args'. unfold safeExecCommand. simpl.
    now destruct start', (is_windows GOOS).
Qed.

(** ** The background task of [main] *)

(** The browser is pointed at [http://localhost:] followed by the port of
    the settings, the port the listener binds.  On Windows the task tears
    down what is tracked and spawns [cmd /c start /b] with that address;
    elsewhere it spawns nothing, leaves the supervisor alone and prints
    the address with the reason. *)
Theorem background_start_events (GOOS : string) (os : TeardownOutcome)
        (start : StartOutcome) (config : Config) (s : Supervisor) :
  serverAddr config = ":" +:+ ServerPort config /\
  (is_windows GOOS = true ->
   (background_start GOOS os start config s).2
   = [EvPrint ("服务器启动，访问 http://localhost:" +:+ ServerPort config
               +:+ nl)]
     ++ (cleanupProcesses GOOS os s).2
     ++ [EvStart "cmd"
                 ["/c"; "start"; "/b";
                  "http://localhost:" +:+ ServerPort config] true;
         match start with
         | StartFails e =>
             EvPrint ("自动打开浏览器失败，请手动访问: http://localhost:" +:+
                      ServerPort config +:+ nl +:+ "错误原因: " +:+ e +:+ nl)
         | Started _ =>
             EvPrint ("已自动打开默认浏览器，若未弹出请手动访问上述地址" +:+ nl)
         end]) /\
  (is_windows GOOS = false ->
   background_start GOOS os start config s
   = (s,
      [EvPrint ("服务器启动，访问 http://localhost:" +:+ ServerPort config
                +:+ nl);
       EvPrint ("自动打开浏览器失败，请手动访问: http://localhost:" +:+
                ServerPort config +:+ nl +:+ "错误原因: 不支持的操作系统: "
                +:+ GOOS +:+ nl)])).
Proof.
  split; [reflexivity|]. unfold background_start, openBrowser, is_windows.
  split; intros HW; rewrite HW.
  - unfold safeExecCommand, is_windows. rewrite HW.
    destruct (cleanupProcesses GOOS os s) as [s1 torn].
    destruct start as [e|pid]; cbn [snd]; now rewrite <- !app_assoc.
  - reflexivity.
Qed.

Lemma strings_Contains_cons (a : ascii) (s sub : string) :
  strings_Contains (String a s) sub
  = String.prefix sub (String a s) || strings_Contains s sub.
Proof. reflexivity. Qed.

Lemma strings_Contains_nil (sub : string) :
  strings_Contains "" sub = String.prefix sub "".
Proof. unfold strings_Contains. apply orb_false_r. Qed.

Lemma strings_Contains_spec (s sub : string) :
  strings_Contains s sub = true <-> Contains s sub.
Proof.
  split.
  - induction s as [|a s IH].
    + rewrite strings_Contains_nil. intros H.
      apply prefix_HasPrefix in H. destruct H as [post H].
      exists "", post. exact H.
    + rewrite strings_Contains_cons, orb_true_iff. intros [H|H].
      * apply prefix_HasPrefix in H. destruct H as [post H].
        exists "", post. exact H.
      * destruct (IH H) as (pre & post & ->).
        exists (String a pre), post. reflexivity.
  - intros (pre & post & ->). induction pre as [|a pre IH].
    + rewrite append_nil_l.
      assert (P : String.prefix sub (sub +:+ post) = true)
        by (apply prefix_HasPrefix; now exists post).
      destruct (sub +:+ post).
      * now rewrite strings_Contains_nil.
      * now rewrite strings_Contains_cons, P.
    + rewrite append_cons, strings_Contains_cons, IH. apply orb_true_r.
Qed.

(** When the listener has returned, the task prints nothing exactly when
    the error text has "closed" somewhere in it (as the error of an
    orderly [srv.Close] has, and any other such error too); every other
    error is printed, followed by the hint that names the port. *)
Theorem listener_finished_prints (e : error) (config : Config) :
  (listener_finished (Some e) config = [] <-> Contains e "closed") /\
  (~ Contains e "closed" ->
   listener_finished (Some e) config
   = [EvPrint ("服务器错误: " +:+ e +:+ nl);
      EvPrint ("提示：端口 " +:+ ServerPort config +:+
               " 可能已被占用，请修改 config.json 中的 server_port 字段（如 8081）"
               +:+ nl)]).
Proof.
  unfold listener_finished. rewrite <- strings_Contains_spec.
  destruct (strings_Contains e "closed"); simpl.
  - split; [tauto | intros H; now destruct H].
  - split; [split; discriminate | reflexivity].
Qed.
